(** * data_extraction.py: the scroll-and-extract engine of [DataExtractor]

    A shallow embedding of [src/data_extraction.py].  Python strings are
    sequences of Unicode code points, the set [extracted_ids] is a [gset],
    [self.data] is a list in discovery order, exceptions are values of an
    error monad, and the browser page is an oracle that answers each
    [page.evaluate] of the pagination loop. *)

From Stdlib Require Import ZArith NArith List Bool Lia String Ascii.
From stdpp Require Import base option list gmap sets.

(** ** Python strings *)

(** A [str] is a sequence of code points. *)
Definition pystr := list N.

(** ASCII literals, for readable examples. *)
Definition py (s : string) : pystr := List.map N_of_ascii (list_ascii_of_string s).

Definition in_ranges (tbl : list (N * N)) (c : N) : bool :=
  existsb (fun r => (fst r <=? c)%N && (c <=? snd r)%N) tbl.

(** Code points that [str.split()] (no argument) and [str.isspace] treat as
    whitespace (CPython's [Py_UNICODE_ISSPACE]). *)
Definition space_ranges : list (N * N) :=
  [(9, 13); (28, 32); (133, 133); (160, 160); (5760, 5760); (8192, 8202);
   (8232, 8233); (8239, 8239); (8287, 8287); (12288, 12288)]%N.

Definition isspace (c : N) : bool := in_ranges space_ranges c.

(** Code points for which [str.isdigit] holds (Numeric_Type Digit or Decimal,
    Unicode 14.0.0, the table of CPython 3.11). *)
Definition digit_ranges : list (N * N) :=
  [(48, 57); (178, 179); (185, 185); (1632, 1641); (1776, 1785); (1984, 1993);
   (2406, 2415); (2534, 2543); (2662, 2671); (2790, 2799); (2918, 2927);
   (3046, 3055); (3174, 3183); (3302, 3311); (3430, 3439); (3558, 3567);
   (3664, 3673); (3792, 3801); (3872, 3881); (4160, 4169); (4240, 4249);
   (4969, 4977); (6112, 6121); (6160, 6169); (6470, 6479); (6608, 6618);
   (6784, 6793); (6800, 6809); (6992, 7001); (7088, 7097); (7232, 7241);
   (7248, 7257); (8304, 8304); (8308, 8313); (8320, 8329); (9312, 9320);
   (9332, 9340); (9352, 9360); (9450, 9450); (9461, 9469); (9471, 9471);
   (10102, 10110); (10112, 10120); (10122, 10130); (42528, 42537);
   (43216, 43225); (43264, 43273); (43472, 43481); (43504, 43513);
   (43600, 43609); (44016, 44025); (65296, 65305); (66720, 66729);
   (68160, 68163); (68912, 68921); (69216, 69224); (69714, 69722);
   (69734, 69743); (69872, 69881); (69942, 69951); (70096, 70105);
   (70384, 70393); (70736, 70745); (70864, 70873); (71248, 71257);
   (71360, 71369); (71472, 71481); (71904, 71913); (72016, 72025);
   (72784, 72793); (73040, 73049); (73120, 73129); (92768, 92777);
   (92864, 92873); (93008, 93017); (120782, 120831); (123200, 123209);
   (123632, 123641); (125264, 125273); (127232, 127242); (130032, 130041)]%N.

Definition isdigit (c : N) : bool := in_ranges digit_ranges c.

(** Code points of general category Sc (currency symbols); used only by the
    specification-side normalizer [clean_spec]. *)
Definition currency_ranges : list (N * N) :=
  [(36, 36); (162, 165); (1423, 1423); (1547, 1547); (2046, 2047);
   (2546, 2547); (2555, 2555); (2801, 2801); (3065, 3065); (3647, 3647);
   (6107, 6107); (8352, 8384); (43064, 43064); (65020, 65020); (65129, 65129);
   (65284, 65284); (65504, 65505); (65509, 65510); (73693, 73696);
   (123647, 123647); (126128, 126128)]%N.

Definition is_currency (c : N) : bool := in_ranges currency_ranges c.

(** [value.split()]: maximal runs of non-whitespace code points, in order.
    [cur] holds the token being read. *)
Fixpoint split_from (cur : pystr) (s : pystr) : list pystr :=
  match s with
  | [] => match cur with [] => [] | _ => [cur] end
  | c :: s' =>
      if isspace c
      then match cur with
           | [] => split_from [] s'
           | _ => cur :: split_from [] s'
           end
      else split_from (cur ++ [c]) s'
  end.

Definition split (s : pystr) : list pystr := split_from [] s.

(** [" " in value] *)
Definition contains_space (value : pystr) : bool := existsb (N.eqb 32) value.

(** [part.startswith('$')] *)
Definition startswith_dollar (part : pystr) : bool :=
  match part with
  | c :: _ => (c =? 36)%N
  | [] => false
  end.

(** ** Exceptions *)

Inductive exn : Type :=
  | IndexError
  | ValueError
  | LoginFailed.

Inductive result (A : Type) : Type :=
  | Ok (a : A)
  | Raise (e : exn).
Arguments Ok {A} a.
Arguments Raise {A} e.

Definition rbind {A B : Type} (m : result A) (k : A -> result B) : result B :=
  match m with
  | Ok a => k a
  | Raise e => Raise e
  end.

Notation "'do' x <- m ; k" := (rbind m (fun x => k))
  (at level 10, x name, m at level 100, k at level 200).

(** ** [_clean_value] *)

(** [any(char.isdigit() for char in part) or part.startswith('$')] *)
Definition looks_like_value (part : pystr) : bool :=
  existsb isdigit part || startswith_dollar part.

Definition clean_value (value : pystr) : result pystr :=
  if contains_space value then
    let parts := split value in
    match List.find looks_like_value parts with
    | Some part => Ok part
    | None =>
        match parts with
        | part0 :: _ => Ok part0
        | [] => Raise IndexError
        end
    end
  else Ok value.

(** ** Records and the ceiling *)

(** One card of the grid, as the in-page script returns it: an object with
    the five keys, every one of them set. *)
Record product : Type := Product {
  name : pystr;
  id : pystr;
  price : pystr;
  mass_kg : pystr;
  score : pystr;
}.

(** [len(self.data) < (self.max_products or float('inf'))]: [None] and [0]
    are falsy, so the right operand is infinity for both. *)
Definition below_ceiling (max_products : option Z) (n : nat) : bool :=
  match max_products with
  | Some m => if (m =? 0)%Z then true else (Z.of_nat n <? m)%Z
  | None => true
  end.

(** [self.max_products and len(self.data) >= self.max_products] *)
Definition ceiling_reached (max_products : option Z) (n : nat) : bool :=
  match max_products with
  | Some m => negb (m =? 0)%Z && (m <=? Z.of_nat n)%Z
  | None => false
  end.

(** The four assignments [product[k] = self._clean_value(product[k])], in
    the order of the source; the first one that raises ends the call. *)
Definition clean_fields (p : product) : result product :=
  do i <- clean_value (id p);
  do pr <- clean_value (price p);
  do m <- clean_value (mass_kg p);
  do s <- clean_value (score p);
  Ok {| name := name p; id := i; price := pr; mass_kg := m; score := s |}.

(** ** [_extract_products_from_current_view]

    The for loop over [product_data_list].  It mutates [self.data] and the
    caller's [extracted_ids]; both are returned, also when a
    normalization raises (what was appended before stays appended). *)
Fixpoint extract_products_from_current_view (max_products : option Z)
    (product_data_list : list product)
    (data : list product) (extracted_ids : gset pystr)
    : result unit * (list product * gset pystr) :=
  match product_data_list with
  | [] => (Ok tt, (data, extracted_ids))
  | p :: rest =>
      if bool_decide (id p ∉ extracted_ids)
         && below_ceiling max_products (length data)
      then
        match clean_fields p with
        | Ok p' =>
            extract_products_from_current_view max_products rest
              (data ++ [p']) (extracted_ids ∪ {[ id p' ]})
        | Raise e => (Raise e, (data, extracted_ids))
        end
      else
        extract_products_from_current_view max_products rest data extracted_ids
  end.

(** ** The page, seen from the pagination loop

    Iteration [i] of the loop asks the page twice: for the cards now
    rendered, and, after scrolling, for [document.body.scrollHeight]. *)
Record view : Type := View {
  cards : list product;
  height_after_scroll : Z;
}.

Record page : Type := Page {
  grid_visible : bool;      (* wait_for_selector(".grid > div") succeeds *)
  first_height : Z;         (* scrollHeight read before the loop *)
  views : nat -> view;
}.

(** ** [_extract_product_data] *)

Definition max_scroll_attempts : nat := 1000.
Definition max_no_new_items : nat := 3.

Record loop_state : Type := LoopState {
  data : list product;              (* self.data *)
  extracted_ids : gset pystr;
  last_height : Z;
  scroll_attempts : nat;
  no_new_items_count : nat;
}.

Inductive stop : Type :=
  | LimitBreak    (* one of the two [break]s on the ceiling *)
  | WhileExit.    (* the while condition became false *)

(** [iterations] counts the calls of [_extract_products_from_current_view]
    made by the loop. *)
Inductive outcome : Type :=
  | Finished (how : stop) (iterations : nat) (st : loop_state)
  | Raised (e : exn) (iterations : nat) (st : loop_state)
  | OutOfFuel (st : loop_state).

Definition while_condition (st : loop_state) : bool :=
  (scroll_attempts st <? max_scroll_attempts)%nat
  && (no_new_items_count st <? max_no_new_items)%nat.

Fixpoint pagination_loop (max_products : option Z) (pg : page)
    (fuel : nat) (i : nat) (st : loop_state) : outcome :=
  if while_condition st then
    match fuel with
    | O => OutOfFuel st
    | S fuel' =>
        if ceiling_reached max_products (length (data st))
        then Finished LimitBreak i st
        else
          let current_batch_count := length (data st) in
          let '(r, (data', ids')) :=
            extract_products_from_current_view max_products
              (cards (views pg i)) (data st) (extracted_ids st) in
          match r with
          | Raise e =>
              Raised e (S i)
                {| data := data'; extracted_ids := ids';
                   last_height := last_height st;
                   scroll_attempts := scroll_attempts st;
                   no_new_items_count := no_new_items_count st |}
          | Ok _ =>
              let new_items_in_batch := (length data' - current_batch_count)%nat in
              let no_new :=
                if (new_items_in_batch =? 0)%nat
                then S (no_new_items_count st) else O in
              if ceiling_reached max_products (length data')
              then Finished LimitBreak (S i)
                     {| data := data'; extracted_ids := ids';
                        last_height := last_height st;
                        scroll_attempts := scroll_attempts st;
                        no_new_items_count := no_new |}
              else
                let new_height := height_after_scroll (views pg i) in
                let st' :=
                  if (new_height =? last_height st)%Z
                  then {| data := data'; extracted_ids := ids';
                          last_height := last_height st;
                          scroll_attempts := S (scroll_attempts st);
                          no_new_items_count := no_new |}
                  else {| data := data'; extracted_ids := ids';
                          last_height := new_height;
                          scroll_attempts := O;
                          no_new_items_count := no_new |} in
                pagination_loop max_products pg fuel' (S i) st'
          end
    end
  else Finished WhileExit i st.

(** The locals before the loop, around the current [self.data]. *)
Definition initial_state (data0 : list product) (pg : page) : loop_state :=
  {| data := data0; extracted_ids := ∅; last_height := first_height pg;
     scroll_attempts := O; no_new_items_count := O |}.

Inductive extraction : Type :=
  | GridTimeout (data0 : list product)   (* TimeoutError caught, plain return *)
  | Scrolled (o : outcome).

Definition extract_product_data (max_products : option Z) (pg : page)
    (fuel : nat) (data0 : list product) : extraction :=
  if grid_visible pg
  then Scrolled (pagination_loop max_products pg fuel O (initial_state data0 pg))
  else GridTimeout data0.

(** ** [run]

    The driver is an external collaborator: its navigation primitives are
    taken to succeed, and what the run observes of the site is collected in
    a [site] record.  What the run does to the outside is logged as a trace
    of events. *)

(** Values of the credentials: an argument of [run] or a JSON value of the
    configuration mapping. *)
Inductive pyval : Type :=
  | PyNone
  | PyBool (b : bool)
  | PyInt (n : Z)
  | PyStr (s : pystr)
  | PyObject (truth : bool).   (* a float, list or object: only its truth value matters *)

(** Python truthiness, as used by [not username]. *)
Definition truthy (v : pyval) : bool :=
  match v with
  | PyNone => false
  | PyBool b => b
  | PyInt n => negb (n =? 0)%Z
  | PyStr s => match s with [] => false | _ => true end
  | PyObject truth => truth
  end.

(** The answer of one [is_visible(timeout=2000)] probe. *)
Inductive probe : Type :=
  | Visible
  | Hidden
  | ProbeError.   (* raised; the bare [except] continues with the next one *)

(** [_is_login_required]: the four indicators, in order. *)
Definition is_login_required (indicators : nat -> probe) : bool :=
  existsb (fun k => match indicators k with Visible => true | _ => false end)
          (seq 0 4).

Inductive config_file : Type :=
  | ConfigMissing
  | ConfigInvalid                              (* json.JSONDecodeError *)
  | ConfigMapping (m : gmap pystr pyval).

(** [_load_config], for a file that is absent, is not valid JSON
    (JSONDecodeError, the one exception it catches) or parses to an object.
    The other files make [run] raise before its try block: see
    [run_from_start]. *)
Definition load_config (f : config_file) : gmap pystr pyval :=
  match f with
  | ConfigMapping m => m
  | ConfigInvalid => ∅
  | ConfigMissing => ∅
  end.

Record site : Type := Site {
  config_json : config_file;
  session_file_exists : bool;
  indicators_on_arrival : nat -> probe;
  indicators_after_login : nat -> probe;
  products_page : page;
}.

Inductive event : Type :=
  | EvNewContext (from_session_file : bool)
  | EvGoto
  | EvLoginForm (username password : pyval)
  | EvSaveSession
  | EvGotoChallenge
  | EvNavigateToProducts
  | EvExtract
  | EvExport (records : list product)
  | EvCloseBrowser.

Inductive status (A : Type) : Type :=
  | Returns (a : A)
  | Raises (e : exn)
  | Diverges.     (* the fuel of the pagination loop ran out *)
Arguments Returns {A} a.
Arguments Raises {A} e.
Arguments Diverges {A}.

(** Actions that log events and may raise. *)
Definition act (A : Type) : Type := list event -> status A * list event.

Definition ret {A : Type} (a : A) : act A := fun tr => (Returns a, tr).
Definition raise {A : Type} (e : exn) : act A := fun tr => (Raises e, tr).
Definition emit (ev : event) : act unit := fun tr => (Returns tt, tr ++ [ev]).
Definition abind {A B : Type} (m : act A) (k : A -> act B) : act B :=
  fun tr =>
    match m tr with
    | (Returns a, tr') => k a tr'
    | (Raises e, tr') => (Raises e, tr')
    | (Diverges, tr') => (Diverges, tr')
    end.

(** [try: body finally: cleanup] *)
Definition finally {A : Type} (body : act A) (cleanup : act unit) : act A :=
  fun tr =>
    match body tr with
    | (Diverges, tr') => (Diverges, tr')
    | (r, tr') => (r, snd (cleanup tr'))
    end.

Notation "'bind' x <- m ; k" := (abind m (fun x => k))
  (at level 10, x name, m at level 100, k at level 200).
Notation "'perform' m ; k" := (abind m (fun _ => k))
  (at level 10, m at level 100, k at level 200).

(** [_login]: fill the form, submit, then look for the indicators again. *)
Definition login (w : site) (username password : pyval) : act unit :=
  perform emit (EvLoginForm username password);
  if is_login_required (indicators_after_login w)
  then raise LoginFailed
  else ret tt.

(** The credentials after the configuration fallback at the top of [run]. *)
Definition resolve_credentials (w : site) (username password : pyval)
    : pyval * pyval :=
  if negb (truthy username) || negb (truthy password) then
    let config := load_config (config_json w) in
    (default username (config !! py "username"),
     default password (config !! py "password"))
  else (username, password).

(** The block [if self._is_login_required(page): ...] of [run]. *)
Definition login_gate (w : site) (username password : pyval) : act unit :=
  if is_login_required (indicators_on_arrival w) then
    if negb (truthy username) || negb (truthy password)
    then raise ValueError
    else perform login w username password; emit EvSaveSession
  else ret tt.

(** The call of [_extract_product_data] inside [run]: it returns the new
    [self.data], or lets the exception of a normalization through. *)
Definition extract_step (max_products : option Z) (pg : page) (fuel : nat)
    (data0 : list product) : act (list product) :=
  fun tr =>
    match extract_product_data max_products pg fuel data0 with
    | GridTimeout d => (Returns d, tr ++ [EvExtract])
    | Scrolled (Finished _ _ st) => (Returns (data st), tr ++ [EvExtract])
    | Scrolled (Raised e _ st) => (Raises e, tr ++ [EvExtract])
    | Scrolled (OutOfFuel st) => (Diverges, tr ++ [EvExtract])
    end.

(** [run], for an extractor whose [self.data] is [data0], when the
    configuration fallback and the calls before [try:] raise nothing;
    [run_from_start] adds the ways out that come before. *)
Definition run (w : site) (data0 : list product)
    (username password : pyval) (max_products : option Z) (fuel : nat)
    : status (list product) * list event :=
  let '(username, password) := resolve_credentials w username password in
  (perform emit (EvNewContext (session_file_exists w));
   finally
     (perform emit EvGoto;
      perform login_gate w username password;
      perform emit EvGotoChallenge;
      perform emit EvNavigateToProducts;
      bind data1 <- extract_step max_products (products_page w) fuel data0;
      perform emit (EvExport data1);
      ret data1)
     (emit EvCloseBrowser)) [].

(** ** The start of [run], before its try block

    The configuration fallback, the launch of the browser and the creation
    of the context and of the page come before [try:]: an exception there
    leaves [run] without reaching [finally: browser.close()]. *)

(** What is at the configuration path. *)
Inductive config_on_disk : Type :=
  | Readable (f : config_file)   (* absent, invalid JSON, or a JSON object *)
  | Undecodable                  (* reading raises something that is not a
                                    JSONDecodeError, such as UnicodeDecodeError *)
  | NotAnObject.                 (* valid JSON that is no object: it has no
                                    [get], AttributeError *)

(** How the driver answers the calls before [try:]. *)
Inductive startup : Type :=
  | StartupOk
  | LaunchFails
  | NewContextFails
  | NewPageFails.

Inductive early_exn : Type :=
  | ConfigReadError
  | AttributeError
  | DriverError.

Inductive run_result : Type :=
  | RaisedBeforeTry (e : early_exn) (browser_launched : bool)
  | EnteredTry (r : status (list product) * list event).

Definition with_config (f : config_file) (w : site) : site :=
  {| config_json := f;
     session_file_exists := session_file_exists w;
     indicators_on_arrival := indicators_on_arrival w;
     indicators_after_login := indicators_after_login w;
     products_page := products_page w |}.

(** [run] from its first line.  The configuration file is read only when
    one of the two arguments is falsy. *)
Definition run_from_start (disk : config_on_disk) (start : startup)
    (w : site) (data0 : list product) (username password : pyval)
    (max_products : option Z) (fuel : nat) : run_result :=
  let launch (w' : site) :=
    match start with
    | LaunchFails => RaisedBeforeTry DriverError false
    | NewContextFails => RaisedBeforeTry DriverError true
    | NewPageFails => RaisedBeforeTry DriverError true
    | StartupOk =>
        EnteredTry (run w' data0 username password max_products fuel)
    end in
  if negb (truthy username) || negb (truthy password) then
    match disk with
    | Undecodable => RaisedBeforeTry ConfigReadError false
    | NotAnObject => RaisedBeforeTry AttributeError false
    | Readable f => launch (with_config f w)
    end
  else launch w.

(** ** [_wait_for_selector] and [_navigate_to_products]

    What the page answers when one selector of a traversal step is tried:
    the wait for visibility, the count of the fallback, and the click. *)
Inductive wait_answer : Type :=
  | BecameVisible                       (* wait_for_selector returned *)
  | TimedOut (count : option nat)       (* TimeoutError, then [count()];
                                           [None]: [count()] raised *)
  | WaitRaised.                         (* another exception of the driver *)

Record selector_answer : Type := SelectorAnswer {
  waited : wait_answer;
  click_ok : bool;                      (* [.first.click()] returns *)
}.

(** [_wait_for_selector]; [None] when an exception leaves the method. *)
Definition wait_for_selector (a : wait_answer) : option bool :=
  match a with
  | BecameVisible => Some true
  | TimedOut (Some count) => Some (0 <? count)%nat
  | TimedOut None => None
  | WaitRaised => None
  end.

Inductive nav_event : Type :=
  | NavWait (selector : string)
  | NavClick (selector : string) (ok : bool).

(** One for loop of [_navigate_to_products]: a selector that is found is
    clicked and ends the loop; the bare [except] sends every exception, the
    one of a click included, on to the next selector. *)
Fixpoint cascade (answers : string -> selector_answer)
    (selectors : list string) : list nav_event :=
  match selectors with
  | [] => []
  | selector :: rest =>
      NavWait selector ::
      match wait_for_selector (waited (answers selector)) with
      | Some true =>
          if click_ok (answers selector)
          then [NavClick selector true]
          else NavClick selector false :: cascade answers rest
      | Some false => cascade answers rest
      | None => cascade answers rest
      end
  end.

Definition menu_selectors : list string :=
  ["button:has-text('Menu')"; "[aria-label='Menu']"; ".menu-button";
   "button[class*='menu']"; "button:has(svg)"; "button >> nth=0"]%string.

Definition data_management_selectors : list string :=
  ["button:has-text('Data Management')"; "a:has-text('Data Management')";
   "[href*='data']"; "[href*='management']";
   "div:has-text('Data Management')"]%string.

Definition inventory_selectors : list string :=
  ["button:has-text('Inventory')"; "a:has-text('Inventory')";
   "[href*='inventory']"; "div:has-text('Inventory')"]%string.

Definition view_all_selectors : list string :=
  ["button:has-text('View All Products')"; "a:has-text('View All Products')";
   "button:has-text('View All')"; "a:has-text('View All')";
   "[href*='product']"; "[href*='view']"]%string.

Definition load_table_selectors : list string :=
  ["button:has-text('Load Product Table')"; "button:has-text('Load Table')";
   "button:has-text('Load Products')"; "button:has-text('Load')";
   "button >> nth=0"]%string.

(** [_navigate_to_products]: the five loops, one after the other, each on
    the page as it is at that step. *)
Definition navigate_to_products (answers : nat -> string -> selector_answer)
    : list (list nav_event) :=
  [cascade (answers 0%nat) menu_selectors;
   cascade (answers 1%nat) data_management_selectors;
   cascade (answers 2%nat) inventory_selectors;
   cascade (answers 3%nat) view_all_selectors;
   cascade (answers 4%nat) load_table_selectors].

(** A selector is hit when it is found and its click returns. *)
Definition hit (answers : string -> selector_answer) (selector : string) : bool :=
  match wait_for_selector (waited (answers selector)) with
  | Some true => click_ok (answers selector)
  | _ => false
  end.

Definition is_click (ev : nav_event) : bool :=
  match ev with NavClick _ true => true | _ => false end.

Definition is_wait (ev : nav_event) : bool :=
  match ev with NavWait _ => true | _ => false end.

(** ** The normalizer of the specification

    Follows the words of the specification, for comparison with
    [clean_value]: any whitespace triggers the split, and a token qualifies
    with a digit or a leading currency symbol.  [None] where the
    specification names a first token and there is none. *)
Definition qualifies_spec (token : pystr) : bool :=
  existsb isdigit token
  || match token with c :: _ => is_currency c | [] => false end.

Definition clean_spec (raw : pystr) : option pystr :=
  if existsb isspace raw then
    match List.find qualifies_spec (split raw) with
    | Some token => Some token
    | None => head (split raw)
    end
  else Some raw.

(** [t] is the first element of [l] that satisfies [P]. *)
Definition first_such {A : Type} (P : A -> bool) (l : list A) (t : A) : Prop :=
  exists pre post,
    l = pre ++ t :: post /\ P t = true /\ Forall (fun u => P u = false) pre.

(** ** Vocabulary of the properties *)

Definition outcome_state (o : outcome) : loop_state :=
  match o with
  | Finished _ _ st => st
  | Raised _ _ st => st
  | OutOfFuel st => st
  end.

(** [self.data] after [_extract_product_data], however it ended. *)
Definition final_data (x : extraction) : list product :=
  match x with
  | GridTimeout d => d
  | Scrolled o => data (outcome_state o)
  end.

(** The terminal states of the pagination state machine.  [LimitReached]
    is either [break]; the other two are the conditions that the source
    reports after the loop. *)
Inductive terminal : Type :=
  | Converged
  | LimitReached
  | MaxAttemptsExceeded.

Definition stops_in (o : outcome) (t : terminal) : Prop :=
  match o, t with
  | Finished LimitBreak _ _, LimitReached => True
  | Finished WhileExit _ st, Converged =>
      (max_no_new_items <= no_new_items_count st)%nat
  | Finished WhileExit _ st, MaxAttemptsExceeded =>
      (max_scroll_attempts <= scroll_attempts st)%nat
  | _, _ => False
  end.

(** The loop never leaves its body, whatever the fuel. *)
Definition diverges (max_products : option Z) (pg : page) (st : loop_state)
    : Prop :=
  forall fuel, exists st',
    pagination_loop max_products pg fuel O st = OutOfFuel st'.

(** A batch that raises nothing and accepts nothing. *)
Definition batch_yields_nothing (max_products : option Z)
    (batch : list product) (st : loop_state) : Prop :=
  exists data' ids',
    extract_products_from_current_view max_products batch
      (data st) (extracted_ids st) = (Ok tt, (data', ids'))
    /\ length data' = length (data st).

(** A field that holds some text besides whitespace. *)
Definition present (field : pystr) : Prop :=
  exists c, In c field /\ isspace c = false.

Definition all_fields_present (p : product) : Prop :=
  present (name p) /\ present (id p) /\ present (price p)
  /\ present (mass_kg p) /\ present (score p).

(** The login block of [run] lets the run through: no indicator on
    arrival, or credentials at hand and no indicator left after the form. *)
Definition gate_passes (w : site) (username password : pyval) : Prop :=
  is_login_required (indicators_on_arrival w) = false
  \/ (truthy username = true /\ truthy password = true
      /\ is_login_required (indicators_after_login w) = false).

(** The variant of the loop under a ceiling [m]: three steps for every
    record still missing, and the empty batches still allowed. *)
Definition variant (m : Z) (st : loop_state) : nat :=
  3 * Z.to_nat (m - Z.of_nat (length (data st)))
  + (max_no_new_items - no_new_items_count st).

(** A record whose four normalized fields hold no space character. *)
Definition normalized (r : product) : Prop :=
  contains_space (id r) = false /\ contains_space (price r) = false
  /\ contains_space (mass_kg r) = false /\ contains_space (score r) = false.

(** A trace in which [_export_data] was not called. *)
Definition exports_nothing (tr : list event) : Prop :=
  forall recs, ~ In (EvExport recs) tr.

(** ** Sample inputs *)

(** ["42\tunits"]: whitespace, but no space character. *)
Definition tab_value : pystr := py "42" ++ [9%N] ++ py "units".

Definition card (i : string) : product :=
  {| name := py "Widget"; id := py i; price := py "$19.99 USD";
     mass_kg := py "3.2 kg"; score := py "8.7" |}.

(** [card i] after normalization, when [i] needs none. *)
Definition stored (i : string) : product :=
  {| name := py "Widget"; id := py i; price := py "$19.99";
     mass_kg := py "3.2"; score := py "8.7" |}.

(** A grid that shows the same cards at every scroll while the page keeps
    growing. *)
Definition steady_page (shown : list product) : page :=
  {| grid_visible := true; first_height := 0;
     views := fun i => {| cards := shown;
                          height_after_scroll := Z.of_nat (S i) |} |}.

(** A grid that shows one card never seen before at every scroll: the
    [i]-th has the id ["a" * (i + 1)]. *)
Definition fresh_card (i : nat) : product :=
  {| name := py "Widget"; id := repeat 97%N (S i); price := py "$1.00";
     mass_kg := py "1"; score := py "2" |}.

Definition endless_page : page :=
  {| grid_visible := true; first_height := 0;
     views := fun i => {| cards := [fresh_card i];
                          height_after_scroll := Z.of_nat (S i) |} |}.

(** The loop on [steady_page [card "7"]] after its first iteration. *)
Definition seven_seen : loop_state :=
  {| data := [stored "7"]; extracted_ids := {[ py "7" ]};
     last_height := 1; scroll_attempts := O; no_new_items_count := O |}.

(** Nine cards with the ids 1 to 9. *)
Definition nine_cards : list product :=
  [card "1"; card "2"; card "3"; card "4"; card "5";
   card "6"; card "7"; card "8"; card "9"].

(** A grid that shows the same cards at every scroll on a page that has
    stopped growing. *)
Definition still_page (shown : list product) : page :=
  {| grid_visible := true; first_height := 700;
     views := fun i => {| cards := shown; height_after_scroll := 700 |} |}.

(** A site whose login form stays after the form is submitted. *)
Definition locked_site (pg : page) : site :=
  {| config_json := ConfigMissing; session_file_exists := false;
     indicators_on_arrival := fun k => match k with O => Visible | _ => Hidden end;
     indicators_after_login := fun k => match k with 2%nat => Visible | _ => Hidden end;
     products_page := pg |}.

(** A login site with both credentials in its configuration file. *)
Definition configured_site (pg : page) : site :=
  {| config_json :=
       ConfigMapping (<[ py "username" := PyStr (py "alice") ]>
                        (<[ py "password" := PyStr (py "secret") ]> ∅));
     session_file_exists := false;
     indicators_on_arrival := fun k => match k with O => Visible | _ => Hidden end;
     indicators_after_login := fun _ => Hidden;
     products_page := pg |}.

(** A page on which only the aria-label selector of the menu is found,
    after the button text timed out without a match. *)
Definition aria_menu_only (selector : string) : selector_answer :=
  if String.eqb selector "[aria-label='Menu']"
  then {| waited := TimedOut (Some 1%nat); click_ok := true |}
  else {| waited := TimedOut (Some 0%nat); click_ok := true |}.

(** A page on which every selector is found and every click raises. *)
Definition unclickable (selector : string) : selector_answer :=
  {| waited := BecameVisible; click_ok := false |}.

(** A page that keeps growing and keeps showing the one card whose id text
    is ["42 units"]. *)
Definition spaced_page : page := steady_page [card "42 units"].

(** A grid that never shows up. *)
Definition blank_page : page :=
  {| grid_visible := false; first_height := 0;
     views := fun i => {| cards := []; height_after_scroll := 0 |} |}.

(** A site that asks for no login, and one that shows its login form. *)
Definition open_site (pg : page) : site :=
  {| config_json := ConfigMissing; session_file_exists := true;
     indicators_on_arrival := fun _ => Hidden;
     indicators_after_login := fun _ => Hidden;
     products_page := pg |}.

Definition gated_site (pg : page) : site :=
  {| config_json := ConfigMissing; session_file_exists := false;
     indicators_on_arrival := fun k => match k with O => Visible | _ => Hidden end;
     indicators_after_login := fun _ => Hidden;
     products_page := pg |}.

(** A string without whitespace code points. *)
Definition no_whitespace (t : pystr) : Prop :=
  Forall (fun c => isspace c = false) t.

(** * Properties of the normalizer *)

Lemma space_is_whitespace : isspace 32 = true.
Proof. reflexivity. Qed.

Lemma no_whitespace_no_space (t : pystr) :
  no_whitespace t -> contains_space t = false.
Proof.
  unfold contains_space.
  induction 1 as [|c t Hc _ IH]; [reflexivity|].
  cbn [existsb]. rewrite IH, orb_false_r.
  destruct (N.eqb_spec 32 c) as [<-|]; [|reflexivity].
  rewrite space_is_whitespace in Hc. discriminate.
Qed.

Lemma split_from_tokens (s cur : pystr) :
  no_whitespace cur ->
  Forall (fun t => t <> [] /\ no_whitespace t) (split_from cur s).
Proof.
  revert cur. induction s as [|c s IH]; intros cur Hcur; simpl.
  - destruct cur; constructor; [split; [discriminate|assumption]|constructor].
  - destruct (isspace c) eqn:Hc.
    + destruct cur as [|c0 cur'].
      * apply IH. constructor.
      * constructor; [split; [discriminate|assumption]|].
        apply IH. constructor.
    + apply IH. apply Forall_app. split; [assumption|].
      constructor; [assumption|constructor].
Qed.

Lemma split_tokens (s : pystr) :
  Forall (fun t => t <> [] /\ no_whitespace t) (split s).
Proof. apply split_from_tokens. constructor. Qed.

Lemma split_from_nil (s cur : pystr) :
  split_from cur s = [] <-> cur = [] /\ forallb isspace s = true.
Proof.
  revert cur. induction s as [|c s IH]; intros cur; simpl.
  - destruct cur; split; intros H; try tauto; try discriminate.
    destruct H; discriminate.
  - destruct (isspace c) eqn:Hc; simpl.
    + destruct cur as [|c0 cur'].
      * rewrite IH. tauto.
      * split; [discriminate|]. intros [? _]. discriminate.
    + rewrite IH. split; [|intros [_ ?]; discriminate].
      intros [H _]. destruct cur; discriminate.
Qed.

Lemma split_nil (s : pystr) : split s = [] <-> forallb isspace s = true.
Proof. unfold split. rewrite split_from_nil. tauto. Qed.

(** A for loop that returns at the first hit is [find]. *)
Lemma find_first_such {A : Type} (P : A -> bool) (l : list A) (t : A) :
  List.find P l = Some t <-> first_such P l t.
Proof.
  split.
  - induction l as [|a l IH]; simpl; [discriminate|].
    destruct (P a) eqn:Ha.
    + intros [= <-]. exists [], l. repeat split; [assumption|constructor].
    + intros H. destruct (IH H) as (pre & post & -> & Ht & Hpre).
      exists (a :: pre), post. repeat split; [assumption|].
      constructor; assumption.
  - intros (pre & post & -> & Ht & Hpre).
    induction Hpre as [|a pre Ha _ IH]; simpl.
    + rewrite Ht. reflexivity.
    + rewrite Ha. exact IH.
Qed.

Lemma find_none_forall {A : Type} (P : A -> bool) (l : list A) :
  List.find P l = None <-> Forall (fun u => P u = false) l.
Proof.
  induction l as [|a l IH]; simpl.
  - split; [constructor|reflexivity].
  - destruct (P a) eqn:Ha.
    + split; [discriminate|]. intros H. inversion H; congruence.
    + rewrite IH. split; [constructor; assumption|].
      intros H. inversion H; assumption.
Qed.

(** Whatever [clean_value] returns has no space left in it. *)
Lemma clean_value_no_space (value r : pystr) :
  clean_value value = Ok r -> contains_space r = false.
Proof.
  unfold clean_value. destruct (contains_space value) eqn:Hsp.
  - pose proof (split_tokens value) as Htok. cbv zeta.
    destruct (List.find looks_like_value (split value)) as [part|] eqn:Hf.
    + intros [= <-]. apply find_first_such in Hf.
      destruct Hf as (pre & post & Heq & _ & _). rewrite Heq in Htok.
      apply Forall_app in Htok. destruct Htok as [_ Htok].
      inversion Htok as [|? ? [_ Hp] _]; subst.
      apply no_whitespace_no_space. assumption.
    + destruct (split value) as [|part0 ?]; [discriminate|].
      intros [= <-]. inversion Htok as [|? ? [_ Hp] _]; subst.
      apply no_whitespace_no_space. assumption.
  - intros [= <-]. assumption.
Qed.

Lemma clean_value_fixed (r : pystr) :
  contains_space r = false -> clean_value r = Ok r.
Proof. intros H. unfold clean_value. rewrite H. reflexivity. Qed.

(** * Properties of one batch *)

Section Batch.

Variable max_products : option Z.

Lemma clean_fields_ok (p r : product) :
  clean_fields p = Ok r <->
  name r = name p /\ clean_value (id p) = Ok (id r)
  /\ clean_value (price p) = Ok (price r)
  /\ clean_value (mass_kg p) = Ok (mass_kg r)
  /\ clean_value (score p) = Ok (score r).
Proof.
  unfold clean_fields. split.
  - destruct (clean_value (id p)); [|discriminate].
    destruct (clean_value (price p)); [|discriminate].
    destruct (clean_value (mass_kg p)); [|discriminate].
    destruct (clean_value (score p)); [|discriminate].
    simpl. intros [= <-]. simpl. repeat split.
  - intros (Hn & -> & -> & -> & ->). simpl. destruct r; simpl in *.
    rewrite Hn. reflexivity.
Qed.

(** What a call does to [self.data] and [extracted_ids]: it appends
    normalized cards of the batch, in order, and adds their ids. *)
Lemma extract_appends (batch data : list product) (ids : gset pystr) r data' ids' :
  extract_products_from_current_view max_products batch data ids
    = (r, (data', ids')) ->
  exists new,
    data' = data ++ new
    /\ ids' = ids ∪ list_to_set (List.map id new)
    /\ Forall (fun rcd => exists p, In p batch /\ clean_fields p = Ok rcd) new
    /\ (length new <= length batch)%nat.
Proof.
  revert data ids. induction batch as [|p rest IH]; intros data ids; simpl.
  - intros [= <- <- <-]. exists []. rewrite app_nil_r. simpl.
    rewrite union_empty_r_L. repeat split; [constructor|lia].
  - destruct (bool_decide (id p ∉ ids) && below_ceiling max_products (length data)).
    + destruct (clean_fields p) as [p'|e] eqn:Hp.
      * intros H. apply IH in H. destruct H as (new & -> & -> & Hnew & Hlen).
        exists (p' :: new). rewrite <- app_assoc. simpl.
        rewrite (assoc_L (∪)). repeat split; [|lia].
        constructor; [exists p; auto|].
        eapply Forall_impl; [exact Hnew|].
        intros rcd (q & Hq & Hc). exists q. auto.
      * intros [= <- <- <-]. exists []. rewrite app_nil_r. simpl.
        rewrite union_empty_r_L. repeat split; [constructor|lia].
    + intros H. apply IH in H. destruct H as (new & -> & -> & Hnew & Hlen).
      exists new. repeat split; [ |lia].
      eapply Forall_impl; [exact Hnew|].
      intros rcd (q & Hq & Hc). exists q. auto.
Qed.

(** A batch that accepts nothing changes nothing. *)
Lemma extract_no_new (batch data : list product) (ids : gset pystr) r data' ids' :
  extract_products_from_current_view max_products batch data ids
    = (r, (data', ids')) ->
  length data' = length data ->
  data' = data /\ ids' = ids.
Proof.
  intros H Hlen. apply extract_appends in H.
  destruct H as (new & -> & -> & _ & _).
  rewrite length_app in Hlen. destruct new; simpl in Hlen; [|lia].
  rewrite app_nil_r. simpl. rewrite union_empty_r_L. split; reflexivity.
Qed.

Lemma extract_grows (batch data : list product) (ids : gset pystr) r data' ids' :
  extract_products_from_current_view max_products batch data ids
    = (r, (data', ids')) ->
  (length data <= length data')%nat.
Proof.
  intros H. apply extract_appends in H. destruct H as (new & -> & _).
  rewrite length_app. lia.
Qed.

(** Under a positive ceiling a call never takes [self.data] past it. *)
Lemma extract_ceiling (m : Z) (batch data : list product) (ids : gset pystr)
    r data' ids' :
  max_products = Some m -> (0 < m)%Z ->
  (Z.of_nat (length data) <= m)%Z ->
  extract_products_from_current_view max_products batch data ids
    = (r, (data', ids')) ->
  (Z.of_nat (length data') <= m)%Z.
Proof.
  intros Hm Hpos. revert data ids.
  induction batch as [|p rest IH]; intros data ids Hle; simpl.
  - intros [= <- <- <-]. assumption.
  - destruct (bool_decide (id p ∉ ids)); simpl.
    + destruct (below_ceiling max_products (length data)) eqn:Hb.
      * destruct (clean_fields p) as [p'|e].
        -- apply IH. rewrite length_app. simpl.
           rewrite Hm in Hb. simpl in Hb.
           destruct (Z.eqb_spec m 0); [lia|].
           apply Z.ltb_lt in Hb. lia.
        -- intros [= <- <- <-]. assumption.
      * apply IH. assumption.
    + apply IH. assumption.
Qed.

End Batch.

(** * Properties of the pagination loop *)

Section Loop.

Variable max_products : option Z.
Variable pg : page.

(** More fuel does not change a run that ended. *)
Lemma loop_fuel_mono (fuel k i : nat) (st : loop_state) :
  (forall st', pagination_loop max_products pg fuel i st <> OutOfFuel st') ->
  pagination_loop max_products pg (fuel + k) i st
  = pagination_loop max_products pg fuel i st.
Proof.
  revert i st. induction fuel as [|fuel IH]; intros i st Hend.
  - cbn [pagination_loop] in Hend.
    destruct (while_condition st) eqn:Hw.
    + exfalso. apply (Hend st). reflexivity.
    + destruct k; cbn [Nat.add pagination_loop]; rewrite Hw; reflexivity.
  - cbn [Nat.add pagination_loop] in *.
    destruct (while_condition st); [|reflexivity].
    destruct (ceiling_reached max_products (length (data st))); [reflexivity|].
    destruct (extract_products_from_current_view max_products
                (cards (views pg i)) (data st) (extracted_ids st))
      as [[u|e] [data' ids']]; [|reflexivity].
    destruct (ceiling_reached max_products (length data')); [reflexivity|].
    apply IH. exact Hend.
Qed.

(** The loop makes at most [fuel] calls of the batch extraction. *)
Lemma loop_iterations (fuel i : nat) (st : loop_state) :
  match pagination_loop max_products pg fuel i st with
  | Finished _ n _ | Raised _ n _ => (i <= n <= i + fuel)%nat
  | OutOfFuel _ => True
  end.
Proof.
  revert i st. induction fuel as [|fuel IH]; intros i st;
    cbn [pagination_loop].
  - destruct (while_condition st); [exact I|lia].
  - destruct (while_condition st); [|lia].
    destruct (ceiling_reached max_products (length (data st))); [lia|].
    destruct (extract_products_from_current_view max_products
                (cards (views pg i)) (data st) (extracted_ids st))
      as [[u|e] [data' ids']]; [|lia].
    destruct (ceiling_reached max_products (length data')); [lia|].
    match goal with
    | |- context [pagination_loop _ _ _ _ ?s] => specialize (IH (S i) s)
    end.
    destruct (pagination_loop max_products pg fuel (S i) _); try exact I; lia.
Qed.

(** Normalization is the only source of exceptions in the loop. *)
Lemma clean_value_raises_index_error (value : pystr) (e : exn) :
  clean_value value = Raise e -> e = IndexError.
Proof.
  unfold clean_value. destruct (contains_space value); [|discriminate].
  cbv zeta. destruct (List.find looks_like_value (split value)); [discriminate|].
  destruct (split value); [|discriminate]. congruence.
Qed.

Lemma clean_fields_raises_index_error (p : product) (e : exn) :
  clean_fields p = Raise e -> e = IndexError.
Proof.
  unfold clean_fields.
  destruct (clean_value (id p)) eqn:H1; simpl;
    [|intros [= <-]; eauto using clean_value_raises_index_error].
  destruct (clean_value (price p)) eqn:H2; simpl;
    [|intros [= <-]; eauto using clean_value_raises_index_error].
  destruct (clean_value (mass_kg p)) eqn:H3; simpl;
    [|intros [= <-]; eauto using clean_value_raises_index_error].
  destruct (clean_value (score p)) eqn:H4; simpl;
    [discriminate|intros [= <-]; eauto using clean_value_raises_index_error].
Qed.

Lemma extract_raises_index_error (batch data : list product)
    (ids : gset pystr) e data' ids' :
  extract_products_from_current_view max_products batch data ids
    = (Raise e, (data', ids')) ->
  e = IndexError.
Proof.
  revert data ids. induction batch as [|p rest IH]; intros data ids; simpl.
  - discriminate.
  - destruct (bool_decide (id p ∉ ids) && below_ceiling max_products (length data));
      [|apply IH].
    destruct (clean_fields p) eqn:Hp; [apply IH|].
    intros [= <- _ _]. eauto using clean_fields_raises_index_error.
Qed.

Lemma loop_raises_index_error (fuel i n : nat) (st st' : loop_state) e :
  pagination_loop max_products pg fuel i st = Raised e n st' ->
  e = IndexError.
Proof.
  revert i st. induction fuel as [|fuel IH]; intros i st;
    cbn [pagination_loop].
  - destruct (while_condition st); discriminate.
  - destruct (while_condition st); [|discriminate].
    destruct (ceiling_reached max_products (length (data st))); [discriminate|].
    destruct (extract_products_from_current_view max_products
                (cards (views pg i)) (data st) (extracted_ids st))
      as [[u|e0] [data' ids']] eqn:He.
    + destruct (ceiling_reached max_products (length data')); [discriminate|].
      apply IH.
    + intros [= <- _ _]. eauto using extract_raises_index_error.
Qed.

End Loop.

(** * The loop under a ceiling that is not zero *)

Section Ceiling.

Variable m : Z.
Variable pg : page.

Lemma ceiling_reached_false (n : nat) :
  m <> 0%Z -> ceiling_reached (Some m) n = false -> (Z.of_nat n < m)%Z.
Proof.
  intros Hm. unfold ceiling_reached.
  destruct (Z.eqb_spec m 0); [contradiction|]. simpl.
  intros H. apply Z.leb_gt in H. exact H.
Qed.

(** [self.data] stays within a positive ceiling at every point of the
    loop, also when the fuel runs out or a normalization raises. *)
Lemma loop_ceiling (fuel i : nat) (st : loop_state) :
  (0 < m)%Z ->
  (Z.of_nat (length (data st)) <= m)%Z ->
  (Z.of_nat (length (data (outcome_state
     (pagination_loop (Some m) pg fuel i st)))) <= m)%Z.
Proof.
  intros Hpos. revert i st.
  induction fuel as [|fuel IH]; intros i st Hle; cbn [pagination_loop].
  - destruct (while_condition st); exact Hle.
  - destruct (while_condition st); [|exact Hle].
    destruct (ceiling_reached (Some m) (length (data st))); [exact Hle|].
    destruct (extract_products_from_current_view (Some m)
                (cards (views pg i)) (data st) (extracted_ids st))
      as [[u|e] [data' ids']] eqn:He;
      pose proof (extract_ceiling (Some m) m _ _ _ _ _ _ eq_refl Hpos Hle He)
        as Hle'; [|exact Hle'].
    destruct (ceiling_reached (Some m) (length data')); [exact Hle'|].
    apply IH.
    destruct (height_after_scroll (views pg i) =? last_height st)%Z;
      exact Hle'.
Qed.

Lemma loop_terminates (fuel i : nat) (st : loop_state) :
  m <> 0%Z ->
  (variant m st < fuel)%nat ->
  forall st', pagination_loop (Some m) pg fuel i st <> OutOfFuel st'.
Proof.
  intros Hm. revert i st.
  induction fuel as [|fuel IH]; intros i st Hv st'; [lia|].
  cbn [pagination_loop].
  destruct (while_condition st) eqn:Hw; [|discriminate].
  destruct (ceiling_reached (Some m) (length (data st))) eqn:Hc;
    [discriminate|].
  destruct (extract_products_from_current_view (Some m)
              (cards (views pg i)) (data st) (extracted_ids st))
    as [[u|e] [data' ids']] eqn:He; [|discriminate].
  destruct (ceiling_reached (Some m) (length data')) eqn:Hc';
    [discriminate|].
  apply IH.
  apply ceiling_reached_false in Hc, Hc'; try assumption.
  pose proof (extract_grows _ _ _ _ _ _ _ He) as Hg.
  unfold while_condition in Hw. apply andb_true_iff in Hw.
  destruct Hw as [_ Hw]. apply Nat.ltb_lt in Hw.
  unfold variant, max_no_new_items in *.
  destruct (height_after_scroll (views pg i) =? last_height st)%Z;
    cbn [data no_new_items_count];
    destruct (Nat.eqb_spec (length data' - length (data st)) 0); lia.
Qed.

End Ceiling.

(** * The normalizer: claims C4, C5 and C10 *)

(** C4 (as amended).  [_clean_value] looks for the space character U+0020
    only: a value without one is returned unchanged, also when it holds
    other whitespace.  A value with a space is split on whitespace and the
    result is the first token with a digit or a leading dollar sign, or the
    first token when no token qualifies.  The four values of Scenario C
    normalize as stated, and every record that a batch stores is a card of
    that batch with its id, price, mass_kg and score normalized and its name
    kept. *)
Theorem clean_value_on_space_character :
  (forall raw, contains_space raw = false -> clean_value raw = Ok raw)
  /\ (forall raw t,
        contains_space raw = true ->
        first_such looks_like_value (split raw) t ->
        clean_value raw = Ok t)
  /\ (forall raw t rest,
        contains_space raw = true ->
        Forall (fun u => looks_like_value u = false) (split raw) ->
        split raw = t :: rest ->
        clean_value raw = Ok t)
  /\ (clean_value (py "42 units") = Ok (py "42")
      /\ clean_value (py "$19.99 USD") = Ok (py "$19.99")
      /\ clean_value (py "3.2 kg") = Ok (py "3.2")
      /\ clean_value (py "8.7") = Ok (py "8.7"))
  /\ (forall max_products batch data ids r data' ids',
        extract_products_from_current_view max_products batch data ids
          = (r, (data', ids')) ->
        exists new,
          data' = data ++ new
          /\ Forall (fun rcd => exists p,
                 In p batch
                 /\ name rcd = name p
                 /\ clean_value (id p) = Ok (id rcd)
                 /\ clean_value (price p) = Ok (price rcd)
                 /\ clean_value (mass_kg p) = Ok (mass_kg rcd)
                 /\ clean_value (score p) = Ok (score rcd)) new).
Proof.
  split; [exact clean_value_fixed|].
  split.
  { intros raw t Hsp Hfirst. unfold clean_value. rewrite Hsp. cbv zeta.
    apply find_first_such in Hfirst. rewrite Hfirst. reflexivity. }
  split.
  { intros raw t rest Hsp Hnone Heq. unfold clean_value. rewrite Hsp. cbv zeta.
    apply find_none_forall in Hnone. rewrite Hnone, Heq. reflexivity. }
  split; [repeat split; reflexivity|].
  intros mp batch data ids r data' ids' H.
  apply extract_appends in H. destruct H as (new & -> & _ & Hnew & _).
  exists new. split; [reflexivity|].
  eapply Forall_impl; [exact Hnew|].
  intros rcd (p & Hin & Hc). exists p. split; [exact Hin|].
  apply clean_fields_ok. exact Hc.
Qed.

Lemma clean_value_on_space_character_witness :
  clean_value (py "abc def") = Ok (py "abc").
Proof.
  destruct clean_value_on_space_character as (_ & _ & H & _).
  apply (H (py "abc def") (py "abc") [py "def"]).
  - reflexivity.
  - repeat constructor.
  - reflexivity.
Defined.

(** C4, as stated, fails: ["42\tunits"] contains whitespace and its first
    token with a digit is ["42"], yet [_clean_value] returns it unchanged. *)
Lemma clean_value_ignores_tab :
  existsb isspace tab_value = true
  /\ clean_spec tab_value = Some (py "42")
  /\ clean_value tab_value = Ok tab_value
  /\ tab_value <> py "42".
Proof. repeat split; try reflexivity. discriminate. Qed.

(** C5.  Normalization is idempotent: [_clean_value] applied to its own
    result gives that result again, for every input string; on the inputs
    on which [_clean_value] raises, both sides of the equation raise. *)
Theorem clean_value_idempotent (x : pystr) :
  (do r <- clean_value x; clean_value r) = clean_value x
  /\ forall r, clean_value x = Ok r -> clean_value r = Ok r.
Proof.
  assert (H : forall r, clean_value x = Ok r -> clean_value r = Ok r).
  { intros r Hx. apply clean_value_fixed. eapply clean_value_no_space. exact Hx. }
  split; [|exact H].
  destruct (clean_value x) as [r|e] eqn:Hx; simpl; [|reflexivity].
  apply H. reflexivity.
Qed.

Lemma clean_value_idempotent_witness :
  clean_value (py "$19.99") = Ok (py "$19.99").
Proof.
  apply (proj2 (clean_value_idempotent (py "$19.99 USD")) (py "$19.99")).
  reflexivity.
Defined.

(** C10.  [_clean_value] is partial: on a value with a space character and
    no token (only whitespace) it raises IndexError and returns no string;
    [" "] is such a value. *)
Theorem clean_value_raises_on_blank (value : pystr)
    (Hspace : contains_space value = true) (Htokens : split value = []) :
  clean_value value = Raise IndexError
  /\ forall r, clean_value value <> Ok r.
Proof.
  assert (H : clean_value value = Raise IndexError).
  { unfold clean_value. rewrite Hspace. cbv zeta. rewrite Htokens. reflexivity. }
  split; [exact H|]. intros r. rewrite H. discriminate.
Qed.

Lemma clean_value_raises_on_blank_witness :
  clean_value (py " ") = Raise IndexError
  /\ forall r, clean_value (py " ") <> Ok r.
Proof.
  apply (clean_value_raises_on_blank (py " ")); reflexivity.
Defined.

(** * The run as a whole *)

Section Run.

Variable w : site.
Variable data0 : list product.
Variable max_products : option Z.
Variable fuel : nat.

(** A run that returns has exported exactly what the extraction left in
    [self.data], once, as its last act before closing the browser. *)
Lemma run_returns (username password : pyval) d tr :
  run w data0 username password max_products fuel = (Returns d, tr) ->
  d = final_data (extract_product_data max_products (products_page w) fuel data0)
  /\ exists pre,
       tr = pre ++ [EvExtract; EvExport d; EvCloseBrowser]
       /\ Forall (fun ev => forall recs, ev <> EvExport recs) pre.
Proof.
  unfold run. destruct (resolve_credentials w username password) as [u p].
  unfold finally, abind, login_gate, login, extract_step, emit, raise, ret, abind.
  simpl.
  destruct (is_login_required (indicators_on_arrival w)).
  - destruct (negb (truthy u) || negb (truthy p)); [discriminate|].
    destruct (is_login_required (indicators_after_login w)); [discriminate|].
    destruct (extract_product_data max_products (products_page w) fuel data0)
      as [d0|[how n st|e n st|st]]; simpl; try discriminate;
      intros [= <- <-]; (split; [reflexivity|]);
      eexists [_; _; _; _; _; _]; (split; [reflexivity|]);
      repeat constructor; discriminate.
  - destruct (extract_product_data max_products (products_page w) fuel data0)
      as [d0|[how n st|e n st|st]]; simpl; try discriminate;
      intros [= <- <-]; (split; [reflexivity|]);
      eexists [_; _; _; _]; (split; [reflexivity|]);
      repeat constructor; discriminate.
Qed.

End Run.

(** * Uniqueness and the ceiling: claims C1 and C2 *)

(** What the deduplication does achieve: as long as no id on the page has a
    space in it, normalization leaves the ids alone, the set holds the ids
    of the stored records, and the records of a fresh extractor keep distinct
    ids. *)
Lemma extract_keeps_unique (max_products : option Z)
    (batch data : list product) (ids : gset pystr) r data' ids' :
  Forall (fun p => contains_space (id p) = false) batch ->
  NoDup (List.map id data) ->
  (forall x, x ∈ List.map id data -> x ∈ ids) ->
  extract_products_from_current_view max_products batch data ids
    = (r, (data', ids')) ->
  NoDup (List.map id data')
  /\ (forall x, x ∈ List.map id data' -> x ∈ ids').
Proof.
  intros Hbatch. revert data ids.
  induction Hbatch as [|p rest Hp _ IH]; intros data ids Hnd Hsub;
    cbn [extract_products_from_current_view].
  - intros [= _ <- <-]. split; assumption.
  - destruct (bool_decide (id p ∉ ids)) eqn:Hfresh; cbn [andb]; [|apply IH; assumption].
    destruct (below_ceiling max_products (length data)); [|apply IH; assumption].
    destruct (clean_fields p) as [p'|e] eqn:Hc.
    + apply clean_fields_ok in Hc. destruct Hc as (_ & Hid & _).
      rewrite (clean_value_fixed _ Hp) in Hid. injection Hid as Hid.
      apply bool_decide_eq_true in Hfresh.
      apply IH.
      * rewrite List.map_app. apply NoDup_app. repeat split.
        -- exact Hnd.
        -- intros x Hx Hx'. cbn in Hx'. apply list_elem_of_singleton in Hx'.
           subst x. apply Hfresh. rewrite Hid. apply Hsub. exact Hx.
        -- cbn. apply NoDup_singleton.
      * intros x Hx. rewrite List.map_app in Hx. apply elem_of_app in Hx.
        apply elem_of_union. destruct Hx as [Hx|Hx]; [left; apply Hsub; exact Hx|].
        right. cbn in Hx. apply list_elem_of_singleton in Hx. subst x.
        apply elem_of_singleton. reflexivity.
    + intros [= _ <- <-]. split; assumption.
Qed.

Lemma loop_keeps_unique (max_products : option Z) (pg : page)
    (fuel i : nat) (st : loop_state) :
  (forall k, Forall (fun p => contains_space (id p) = false) (cards (views pg k))) ->
  NoDup (List.map id (data st)) ->
  (forall x, x ∈ List.map id (data st) -> x ∈ extracted_ids st) ->
  NoDup (List.map id (data (outcome_state
           (pagination_loop max_products pg fuel i st)))).
Proof.
  intros Hpg. revert i st.
  induction fuel as [|fuel IH]; intros i st Hnd Hsub; cbn [pagination_loop].
  - destruct (while_condition st); exact Hnd.
  - destruct (while_condition st); [|exact Hnd].
    destruct (ceiling_reached max_products (length (data st))); [exact Hnd|].
    destruct (extract_products_from_current_view max_products
                (cards (views pg i)) (data st) (extracted_ids st))
      as [[u|e] [data' ids']] eqn:He;
      destruct (extract_keeps_unique _ _ _ _ _ _ _ (Hpg i) Hnd Hsub He)
        as [Hnd' Hsub']; [|exact Hnd'].
    destruct (ceiling_reached max_products (length data')); [exact Hnd'|].
    apply IH;
      destruct (height_after_scroll (views pg i) =? last_height st)%Z;
      assumption.
Qed.

Lemma unique_ids_without_spaces (max_products : option Z) (pg : page)
    (fuel : nat) :
  (forall k, Forall (fun p => contains_space (id p) = false) (cards (views pg k))) ->
  NoDup (List.map id (final_data (extract_product_data max_products pg fuel []))).
Proof.
  intros Hpg. unfold extract_product_data.
  destruct (grid_visible pg); cbn [final_data]; [|constructor].
  apply loop_keeps_unique; [exact Hpg|constructor|].
  intros x Hx. inversion Hx.
Qed.

(** C1 at a failing input.  With [max_products = 2] and a grid that keeps
    showing one card whose id text is ["42 units"], the run exports two
    records with the id ["42"]: the membership test looks up the raw id,
    while [extracted_ids] holds the normalized ones. *)
Theorem same_card_exported_twice :
  run (open_site (steady_page [card "42 units"])) [] PyNone PyNone (Some 2%Z) 5
  = (Returns [stored "42"; stored "42"],
     [EvNewContext true; EvGoto; EvGotoChallenge; EvNavigateToProducts;
      EvExtract; EvExport [stored "42"; stored "42"]; EvCloseBrowser])
  /\ ~ NoDup (List.map id [stored "42"; stored "42"]).
Proof.
  split; [vm_compute; reflexivity|].
  intros H. apply NoDup_cons in H. destruct H as [H _].
  apply H. constructor.
Qed.

(** C2, as stated, fails for a ceiling of 0: the run exports one record. *)
Lemma zero_ceiling_exceeded :
  run (open_site (steady_page [card "7"])) [] PyNone PyNone (Some 0%Z) 10
  = (Returns [stored "7"],
     [EvNewContext true; EvGoto; EvGotoChallenge; EvNavigateToProducts;
      EvExtract; EvExport [stored "7"]; EvCloseBrowser])
  /\ (0 < Z.of_nat (length [stored "7"]))%Z.
Proof. split; [vm_compute; reflexivity|simpl; lia]. Qed.

(** C2 (as amended).  Under a positive ceiling [m], an extractor that holds
    at most [m] records (none, when fresh) never holds more than [m]:
    not after [_extract_product_data], however it ends and at whatever
    point the loop is stopped, and not in what a run returns and exports. *)
Theorem ceiling_never_exceeded (m : Z) (pg : page) (fuel : nat)
    (data0 : list product)
    (Hpos : (0 < m)%Z) (Hfits : (Z.of_nat (length data0) <= m)%Z) :
  (Z.of_nat (length (final_data
      (extract_product_data (Some m) pg fuel data0))) <= m)%Z
  /\ forall w username password d tr,
       products_page w = pg ->
       run w data0 username password (Some m) fuel = (Returns d, tr) ->
       (Z.of_nat (length d) <= m)%Z
       /\ forall recs, In (EvExport recs) tr -> (Z.of_nat (length recs) <= m)%Z.
Proof.
  assert (Hx : (Z.of_nat (length (final_data
            (extract_product_data (Some m) pg fuel data0))) <= m)%Z).
  { unfold extract_product_data. destruct (grid_visible pg); simpl.
    - apply loop_ceiling; assumption.
    - assumption. }
  split; [exact Hx|].
  intros w username password d tr Hpg Hrun.
  apply run_returns in Hrun. rewrite Hpg in Hrun.
  destruct Hrun as (-> & pre & -> & Hpre).
  split; [exact Hx|].
  intros recs Hin. apply in_app_or in Hin. destruct Hin as [Hin|Hin].
  - exfalso. rewrite List.Forall_forall in Hpre. exact (Hpre _ Hin recs eq_refl).
  - simpl in Hin. destruct Hin as [Hin|[Hin|[Hin|[]]]]; try discriminate.
    injection Hin as <-. exact Hx.
Qed.

Lemma ceiling_never_exceeded_witness :
  (Z.of_nat (length (final_data
      (extract_product_data (Some 2%Z) (steady_page [card "1"; card "2"; card "3"])
         5 []))) <= 2)%Z.
Proof.
  apply (ceiling_never_exceeded 2 (steady_page [card "1"; card "2"; card "3"]) 5 []).
  - lia.
  - simpl. lia.
Defined.

(** * Termination: claim C3 *)

Lemma while_exit_condition (max_products : option Z) (pg : page)
    (fuel i n : nat) (st st' : loop_state) :
  pagination_loop max_products pg fuel i st = Finished WhileExit n st' ->
  while_condition st' = false.
Proof.
  revert i st. induction fuel as [|fuel IH]; intros i st;
    cbn [pagination_loop].
  - destruct (while_condition st) eqn:Hw; [discriminate|].
    intros [= _ <-]. exact Hw.
  - destruct (while_condition st) eqn:Hw; [|intros [= _ <-]; exact Hw].
    destruct (ceiling_reached max_products (length (data st))); [discriminate|].
    destruct (extract_products_from_current_view max_products
                (cards (views pg i)) (data st) (extracted_ids st))
      as [[u|e] [data' ids']]; [|discriminate].
    destruct (ceiling_reached max_products (length data')); [discriminate|].
    apply IH.
Qed.

Lemma while_condition_false (st : loop_state) :
  while_condition st = false ->
  (max_no_new_items <= no_new_items_count st)%nat
  \/ (max_scroll_attempts <= scroll_attempts st)%nat.
Proof.
  unfold while_condition. intros H. apply andb_false_iff in H.
  destruct H as [H|H]; apply Nat.ltb_ge in H; [right|left]; exact H.
Qed.

Lemma repeat_no_space (n : nat) : contains_space (repeat 97%N n) = false.
Proof. induction n as [|n IH]; [reflexivity|exact IH]. Qed.

(** On [endless_page] without a ceiling every iteration stores a new
    record, so the loop is still in its body after any number of steps. *)
Lemma endless_page_keeps_going (fuel i : nat) (st : loop_state) :
  scroll_attempts st = O ->
  no_new_items_count st = O ->
  last_height st = Z.of_nat i ->
  (forall x, x ∈ extracted_ids st -> (length x <= i)%nat) ->
  exists st', pagination_loop (Some 0%Z) endless_page fuel i st = OutOfFuel st'.
Proof.
  revert i st. induction fuel as [|fuel IH]; intros i st Hs Hn Hh Hids;
    cbn [pagination_loop]; unfold while_condition; rewrite Hs, Hn;
    change ((0 <? max_scroll_attempts)%nat && (0 <? max_no_new_items)%nat)
      with true; cbv iota.
  - eexists. reflexivity.
  - change (ceiling_reached (Some 0%Z) (length (data st))) with false. cbv iota.
    cbn [views cards endless_page extract_products_from_current_view].
    rewrite bool_decide_eq_true_2; cycle 1.
    { intros Hin. apply Hids in Hin. cbn [id fresh_card] in Hin.
      rewrite repeat_length in Hin. lia. }
    change (below_ceiling (Some 0%Z) (length (data st))) with true.
    cbn [andb].
    assert (Hclean : clean_fields (fresh_card i) = Ok (fresh_card i)).
    { unfold clean_fields. cbn [id price mass_kg score name fresh_card].
      rewrite (clean_value_fixed (repeat 97%N (S i)) (repeat_no_space (S i))).
      reflexivity. }
    rewrite Hclean.
    change (ceiling_reached (Some 0%Z) ?n) with false. cbv iota.
    rewrite length_app. cbn [length height_after_scroll].
    replace (length (data st) + 1 - length (data st) =? 0)%nat with false
      by (symmetry; apply Nat.eqb_neq; lia).
    rewrite Hh.
    replace (Z.of_nat (S i) =? Z.of_nat i)%Z with false
      by (symmetry; apply Z.eqb_neq; lia).
    apply IH; cbn [scroll_attempts no_new_items_count last_height extracted_ids];
      try reflexivity.
    intros x Hx. apply elem_of_union in Hx. destruct Hx as [Hx|Hx].
    + apply Hids in Hx. lia.
    + apply elem_of_singleton in Hx. subst x. cbn [id fresh_card].
      rewrite repeat_length. lia.
Qed.

(** C3, as stated, fails: with a ceiling of 0 (no ceiling at all for the
    source) and a page that shows a new card at every scroll while it grows,
    the loop never stops. *)
Lemma endless_page_diverges :
  diverges (Some 0%Z) endless_page (initial_state [] endless_page).
Proof.
  intros fuel. apply endless_page_keeps_going; try reflexivity.
  intros x Hx. cbn [extracted_ids initial_state] in Hx.
  apply not_elem_of_empty in Hx. contradiction.
Qed.

(** C3 (as amended).  Under a ceiling [m] other than 0, for every page and
    every content of [self.data], the loop ends within [3 * max(m, 0) + 4]
    batch extractions, whatever larger number it is allowed: with the limit
    reached, with 3 consecutive batches without a new record, with 1000
    consecutive scrolls without growth, or with the IndexError of a
    normalization. *)
Theorem pagination_terminates_under_ceiling (m : Z) (pg : page)
    (data0 : list product) (Hm : m <> 0%Z) :
  exists o,
    (forall fuel, (3 * Z.to_nat m + 4 <= fuel)%nat ->
       pagination_loop (Some m) pg fuel O (initial_state data0 pg) = o)
    /\ match o with
       | Finished _ n _ | Raised _ n _ => (n <= 3 * Z.to_nat m + 4)%nat
       | OutOfFuel _ => False
       end
    /\ (stops_in o LimitReached \/ stops_in o Converged
        \/ stops_in o MaxAttemptsExceeded
        \/ exists n st, o = Raised IndexError n st).
Proof.
  set (bound := (3 * Z.to_nat m + 4)%nat).
  set (st0 := initial_state data0 pg).
  assert (Hend : forall st', pagination_loop (Some m) pg bound O st0 <> OutOfFuel st').
  { apply loop_terminates; [exact Hm|].
    unfold variant, st0, bound, max_no_new_items.
    cbn [data no_new_items_count initial_state]. lia. }
  exists (pagination_loop (Some m) pg bound O st0).
  split; [|split].
  - intros fuel Hfuel. replace fuel with (bound + (fuel - bound))%nat by lia.
    apply loop_fuel_mono. exact Hend.
  - pose proof (loop_iterations (Some m) pg bound O st0) as Hit.
    destruct (pagination_loop (Some m) pg bound O st0) as [how n st|e n st|st];
      [lia|lia|exact (Hend st eq_refl)].
  - destruct (pagination_loop (Some m) pg bound O st0)
      as [[|] n st|e n st|st] eqn:Ho.
    + left. exact I.
    + apply while_exit_condition, while_condition_false in Ho.
      destruct Ho as [Ho|Ho]; [right; left|right; right; left]; exact Ho.
    + right; right; right. apply loop_raises_index_error in Ho. subst e.
      eauto.
    + exfalso. exact (Hend st eq_refl).
Qed.

Lemma pagination_terminates_under_ceiling_witness :
  exists o,
    (forall fuel, (3 * Z.to_nat 1 + 4 <= fuel)%nat ->
       pagination_loop (Some 1%Z) endless_page fuel O
         (initial_state [] endless_page) = o)
    /\ match o with
       | Finished _ n _ | Raised _ n _ => (n <= 3 * Z.to_nat 1 + 4)%nat
       | OutOfFuel _ => False
       end
    /\ (stops_in o LimitReached \/ stops_in o Converged
        \/ stops_in o MaxAttemptsExceeded
        \/ exists n st, o = Raised IndexError n st).
Proof.
  apply (pagination_terminates_under_ceiling 1 endless_page []). lia.
Defined.

(** * Scenario D: claim C6 *)

(** One iteration on a batch that accepts nothing while the page grows. *)
Lemma empty_batch_step (max_products : option Z) (pg : page)
    (fuel i : nat) (st : loop_state) :
  while_condition st = true ->
  ceiling_reached max_products (length (data st)) = false ->
  batch_yields_nothing max_products (cards (views pg i)) st ->
  height_after_scroll (views pg i) <> last_height st ->
  pagination_loop max_products pg (S fuel) i st
  = pagination_loop max_products pg fuel (S i)
      {| data := data st; extracted_ids := extracted_ids st;
         last_height := height_after_scroll (views pg i);
         scroll_attempts := O;
         no_new_items_count := S (no_new_items_count st) |}.
Proof.
  intros Hw Hc (data' & ids' & He & Hlen) Hh.
  cbn [pagination_loop]. rewrite Hw, Hc, He.
  destruct (extract_no_new _ _ _ _ _ _ _ He Hlen) as [-> ->].
  rewrite Hc, Nat.sub_diag. cbn [Nat.eqb].
  apply Z.eqb_neq in Hh. rewrite Hh. reflexivity.
Qed.

(** Scenario D for batches that append nothing.  From any point of the
    loop at which the empty-batch counter is 0 and the ceiling is not
    reached: when the next three batches accept
    nothing while the scrollable height strictly increases after each
    scroll, the loop ends after these three batches by its while condition
    with the empty-batch counter at 3 and the no-growth counter reset to 0,
    that is in [Converged] and not in [MaxAttemptsExceeded]. *)
Theorem three_empty_batches_converge (max_products : option Z) (pg : page)
    (fuel i : nat) (st : loop_state)
    (Hfuel : (3 <= fuel)%nat)
    (Hloop : while_condition st = true)
    (Hcount : no_new_items_count st = O)
    (Hroom : ceiling_reached max_products (length (data st)) = false)
    (Hempty : forall k, (k < 3)%nat ->
       batch_yields_nothing max_products (cards (views pg (i + k))) st)
    (Hgrow : (last_height st < height_after_scroll (views pg i)
              < height_after_scroll (views pg (i + 1)))%Z
             /\ (height_after_scroll (views pg (i + 1))
                 < height_after_scroll (views pg (i + 2)))%Z) :
  pagination_loop max_products pg fuel i st
  = Finished WhileExit (i + 3)
      {| data := data st; extracted_ids := extracted_ids st;
         last_height := height_after_scroll (views pg (i + 2));
         scroll_attempts := O; no_new_items_count := 3 |}
  /\ stops_in (pagination_loop max_products pg fuel i st) Converged
  /\ ~ stops_in (pagination_loop max_products pg fuel i st) MaxAttemptsExceeded.
Proof.
  destruct fuel as [|[|[|fuel]]]; try lia.
  assert (Ho : pagination_loop max_products pg (S (S (S fuel))) i st
               = Finished WhileExit (i + 3)
                   {| data := data st; extracted_ids := extracted_ids st;
                      last_height := height_after_scroll (views pg (i + 2));
                      scroll_attempts := O; no_new_items_count := 3 |}).
  { pose proof (Hempty 0%nat ltac:(lia)) as H0.
    pose proof (Hempty 1%nat ltac:(lia)) as H1.
    pose proof (Hempty 2%nat ltac:(lia)) as H2.
    rewrite Nat.add_0_r in H0.
    rewrite empty_batch_step; [|assumption|assumption|assumption|lia].
    rewrite Hcount.
    replace (S i) with (i + 1)%nat by lia.
    rewrite empty_batch_step; [|reflexivity|exact Hroom|exact H1|cbn; lia].
    cbn [data extracted_ids no_new_items_count].
    replace (S (i + 1)) with (i + 2)%nat by lia.
    rewrite empty_batch_step; [|reflexivity|exact Hroom|exact H2|cbn; lia].
    cbn [data extracted_ids no_new_items_count].
    replace (S (i + 2)) with (i + 3)%nat by lia.
    destruct fuel; reflexivity. }
  rewrite Ho. split; [reflexivity|]. split.
  - cbn. unfold max_no_new_items. lia.
  - cbn. unfold max_scroll_attempts. lia.
Qed.

Lemma three_empty_batches_converge_witness :
  pagination_loop (Some 5%Z) (steady_page [card "7"]) 3 1 seven_seen
  = Finished WhileExit 4
      {| data := [stored "7"]; extracted_ids := {[ py "7" ]};
         last_height := 4; scroll_attempts := O; no_new_items_count := 3 |}
  /\ stops_in (pagination_loop (Some 5%Z) (steady_page [card "7"]) 3 1 seven_seen)
       Converged
  /\ ~ stops_in (pagination_loop (Some 5%Z) (steady_page [card "7"]) 3 1 seven_seen)
         MaxAttemptsExceeded.
Proof.
  apply (three_empty_batches_converge (Some 5%Z) (steady_page [card "7"]) 3 1
           seven_seen).
  - lia.
  - reflexivity.
  - reflexivity.
  - reflexivity.
  - intros k _. exists [stored "7"], {[ py "7" ]}.
    split; [vm_compute; reflexivity|reflexivity].
  - simpl. lia.
Defined.

(** C6 at a failing input.  On a page that keeps growing and keeps showing
    the one card with the id text ["42 units"], with [max_products = 10]:
    after the first batch no batch brings an id that [extracted_ids] lacks
    (the set is the same after one batch and after four), and the height
    grows at every scroll; yet every batch is accepted again, the
    empty-batch counter stays at 0, and the loop ends on the ceiling with ten
    records, not in [Converged]. *)
Theorem repeated_card_never_converges :
  extracted_ids (outcome_state
     (pagination_loop (Some 10%Z) spaced_page 1 O (initial_state [] spaced_page)))
  = {[ py "42" ]}
  /\ extracted_ids (outcome_state
       (pagination_loop (Some 10%Z) spaced_page 4 O (initial_state [] spaced_page)))
     = {[ py "42" ]}
  /\ no_new_items_count (outcome_state
       (pagination_loop (Some 10%Z) spaced_page 4 O (initial_state [] spaced_page)))
     = O
  /\ (height_after_scroll (views spaced_page 0)
      < height_after_scroll (views spaced_page 1)
      < height_after_scroll (views spaced_page 2))%Z
  /\ (height_after_scroll (views spaced_page 2)
      < height_after_scroll (views spaced_page 3))%Z
  /\ pagination_loop (Some 10%Z) spaced_page 12 O (initial_state [] spaced_page)
     = Finished LimitBreak 10
         {| data := repeat (stored "42") 10; extracted_ids := {[ py "42" ]};
            last_height := 9; scroll_attempts := O; no_new_items_count := O |}
  /\ ~ stops_in
         (pagination_loop (Some 10%Z) spaced_page 12 O (initial_state [] spaced_page))
         Converged.
Proof.
  assert (Hend : pagination_loop (Some 10%Z) spaced_page 12 O
                   (initial_state [] spaced_page)
                 = Finished LimitBreak 10
                     {| data := repeat (stored "42") 10;
                        extracted_ids := {[ py "42" ]};
                        last_height := 9; scroll_attempts := O;
                        no_new_items_count := O |})
    by (vm_compute; reflexivity).
  split; [vm_compute; reflexivity|].
  split; [vm_compute; reflexivity|].
  split; [vm_compute; reflexivity|].
  split; [simpl; lia|].
  split; [simpl; lia|].
  split; [exact Hend|].
  rewrite Hend. intros H. exact H.
Qed.

(** * Scenario E: claim C7 *)

Lemma present_cleans (field : pystr) :
  present field -> exists r, clean_value field = Ok r.
Proof.
  intros (c & Hin & Hc). unfold clean_value.
  destruct (contains_space field); [|eauto]. cbv zeta.
  destruct (List.find looks_like_value (split field)); [eauto|].
  destruct (split field) eqn:Hs; [|eauto].
  exfalso. apply split_nil in Hs.
  rewrite forallb_forall in Hs. rewrite (Hs c Hin) in Hc. discriminate.
Qed.

Lemma all_fields_present_clean (p : product) :
  all_fields_present p -> exists p', clean_fields p = Ok p'.
Proof.
  intros (_ & Hi & Hp & Hm & Hs). unfold clean_fields.
  destruct (present_cleans _ Hi) as [i ->].
  destruct (present_cleans _ Hp) as [pr ->].
  destruct (present_cleans _ Hm) as [m ->].
  destruct (present_cleans _ Hs) as [s ->].
  simpl. eauto.
Qed.

(** With every field present, a batch raises nothing. *)
Lemma extract_ok (max_products : option Z) (batch data : list product)
    (ids : gset pystr) :
  Forall all_fields_present batch ->
  fst (extract_products_from_current_view max_products batch data ids) = Ok tt.
Proof.
  intros Hall. revert data ids.
  induction Hall as [|p rest Hp _ IH]; intros data ids; simpl; [reflexivity|].
  destruct (bool_decide (id p ∉ ids) && below_ceiling max_products (length data));
    [|apply IH].
  destruct (all_fields_present_clean p Hp) as [p' ->]. apply IH.
Qed.

Lemma size_list_to_set_le (l : list pystr) :
  size (list_to_set l : gset pystr) <= length l.
Proof.
  induction l as [|x l IH].
  - rewrite list_to_set_nil, size_empty. simpl. lia.
  - rewrite list_to_set_cons, size_union_alt, size_singleton. simpl.
    pose proof (subseteq_size (list_to_set l ∖ {[x]}) (list_to_set l : gset pystr)
                  (subseteq_difference_l _ _ _ (reflexivity _))).
    lia.
Qed.

(** A batch of cards with distinct raw ids either fills the ceiling or
    stores every card it did not reject, and it rejects a card only
    for a raw id that is in [extracted_ids]. *)
Lemma extract_accepts_or_rejects (m : Z) (batch data : list product)
    (ids : gset pystr) data' ids' :
  m <> 0%Z ->
  NoDup (List.map id batch) ->
  extract_products_from_current_view (Some m) batch data ids
    = (Ok tt, (data', ids')) ->
  (m <= Z.of_nat (length data'))%Z
  \/ exists rejected : list pystr,
       length batch = (length data' - length data + length rejected)%nat
       /\ NoDup rejected
       /\ (forall x, x ∈ rejected -> x ∈ List.map id batch)
       /\ (forall x, x ∈ rejected -> x ∈ ids').
Proof.
  intros Hm. revert data ids.
  induction batch as [|p rest IH]; intros data ids Hnd;
    cbn [extract_products_from_current_view].
  - intros [= <- <-]. right. exists []. rewrite Nat.sub_diag.
    repeat split; [constructor|intros x Hx; inversion Hx..].
  - simpl in Hnd. apply NoDup_cons in Hnd. destruct Hnd as [Hp Hnd].
    destruct (bool_decide (id p ∉ ids)) eqn:Hfresh; cbn [andb].
    + destruct (below_ceiling (Some m) (length data)) eqn:Hb.
      * destruct (clean_fields p) as [p'|e]; [|discriminate].
        intros He. pose proof (extract_grows _ _ _ _ _ _ _ He) as Hg.
        rewrite length_app in Hg. simpl in Hg.
        destruct (IH _ _ Hnd He) as [Hfull|(rej & Hlen & Hrnd & Hrb & Hri)];
          [left; exact Hfull|].
        right. exists rej. rewrite length_app in Hlen. cbn [length] in *.
        repeat split; [lia|exact Hrnd| |exact Hri].
        intros x Hx. right. apply Hrb. exact Hx.
      * intros He. left.
        pose proof (extract_grows _ _ _ _ _ _ _ He) as Hg.
        simpl in Hb. destruct (Z.eqb_spec m 0); [contradiction|].
        apply Z.ltb_ge in Hb. lia.
    + intros He.
      destruct (IH _ _ Hnd He) as [Hfull|(rej & Hlen & Hrnd & Hrb & Hri)];
        [left; exact Hfull|].
      right. exists (id p :: rej).
      apply bool_decide_eq_false in Hfresh.
      assert (Hin : id p ∈ ids) by (destruct (decide (id p ∈ ids)); tauto).
      apply extract_appends in He. destruct He as (new & Hd & Hi & _ & _).
      repeat split.
      * subst data'. rewrite length_app in *. cbn [length] in *. lia.
      * apply NoDup_cons. split; [|exact Hrnd].
        intros Hx. apply Hp. apply Hrb. exact Hx.
      * intros x Hx. apply elem_of_cons in Hx. destruct Hx as [->|Hx];
          [left|right; apply Hrb; exact Hx].
      * intros x Hx. apply elem_of_cons in Hx. destruct Hx as [->|Hx];
          [|apply Hri; exact Hx].
        subst ids'. apply elem_of_union. left. exact Hin.
Qed.


(** C7.  With the ceiling at 5, a fresh extractor, and a first batch of 9
    cards with distinct ids and all five fields present, the first call of
    the batch extraction stores exactly 5 normalized cards of the batch, the
    other 4 are not stored, and the loop ends at once on the ceiling, in
    [LimitReached]. *)
Theorem five_of_nine_accepted (pg : page) (fuel : nat)
    (Hfuel : (1 <= fuel)%nat)
    (Hgrid : grid_visible pg = true)
    (Hnine : length (cards (views pg O)) = 9%nat)
    (Hunique : NoDup (List.map id (cards (views pg O))))
    (Hfields : Forall all_fields_present (cards (views pg O))) :
  exists st,
    extract_product_data (Some 5%Z) pg fuel [] =
      Scrolled (Finished LimitBreak 1 st)
    /\ length (data st) = 5%nat
    /\ (length (cards (views pg O)) - length (data st) = 4)%nat
    /\ Forall (fun rcd => exists p,
                 In p (cards (views pg O)) /\ clean_fields p = Ok rcd) (data st)
    /\ stops_in (Finished LimitBreak 1 st) LimitReached.
Proof.
  unfold extract_product_data. rewrite Hgrid.
  destruct fuel as [|fuel]; [lia|]. cbn [pagination_loop].
  change (while_condition (initial_state [] pg)) with true.
  change (ceiling_reached (Some 5%Z) (length (data (initial_state [] pg))))
    with false.
  cbv iota. cbn [data extracted_ids initial_state].
  pose proof (extract_ok (Some 5%Z) _ [] ∅ Hfields) as Hok.
  destruct (extract_products_from_current_view (Some 5%Z)
              (cards (views pg O)) [] ∅) as [r [data' ids']] eqn:He.
  simpl in Hok. subst r.
  assert (Hle : (Z.of_nat (length data') <= 5)%Z).
  { eapply (extract_ceiling (Some 5%Z) 5); [reflexivity|lia| |exact He].
    simpl. lia. }
  assert (Hfive : length data' = 5%nat).
  { destruct (extract_accepts_or_rejects 5 _ _ _ _ _ ltac:(lia) Hunique He)
      as [Hfull|(rej & Hlen & Hrnd & _ & Hri)]; [lia|].
    apply extract_appends in He. destruct He as (new & Hd & Hi & _ & _).
    simpl in Hd. subst data'.
    assert (Hsize : (length rej <= length new)%nat).
    { rewrite <- (size_list_to_set (C := gset pystr) rej Hrnd).
      etransitivity; [apply (subseteq_size _ ids')|].
      - intros x Hx. apply elem_of_list_to_set in Hx. apply Hri. exact Hx.
      - subst ids'. rewrite union_empty_l_L.
        etransitivity; [apply size_list_to_set_le|].
        rewrite length_map. reflexivity. }
    rewrite Hnine in Hlen. simpl in Hlen. lia. }
  rewrite Hfive.
  change (ceiling_reached (Some 5%Z) 5) with true. cbv iota.
  eexists. split; [reflexivity|]. cbn [data].
  split; [exact Hfive|]. split; [rewrite Hnine, Hfive; reflexivity|].
  split; [|exact I].
  apply extract_appends in He. destruct He as (new & Hd & _ & Hnew & _).
  simpl in Hd. subst data'. exact Hnew.
Qed.

Lemma five_of_nine_accepted_witness :
  exists st,
    extract_product_data (Some 5%Z) (steady_page nine_cards) 1 [] =
      Scrolled (Finished LimitBreak 1 st)
    /\ length (data st) = 5%nat
    /\ (length (cards (views (steady_page nine_cards) O)) - length (data st) = 4)%nat
    /\ Forall (fun rcd => exists p,
                 In p (cards (views (steady_page nine_cards) O))
                 /\ clean_fields p = Ok rcd) (data st)
    /\ stops_in (Finished LimitBreak 1 st) LimitReached.
Proof.
  apply (five_of_nine_accepted (steady_page nine_cards) 1).
  - lia.
  - reflexivity.
  - reflexivity.
  - simpl. apply NoDup_ListNoDup. repeat constructor; simpl; intuition discriminate.
  - repeat constructor; (eexists; split; [left; reflexivity|reflexivity]).
Defined.

(** * Errors of the run: claims C8 and C9 *)

(** The check behind the ValueError of [run]: the login form is there and,
    after the configuration fallback, one of the credentials is falsy. *)
Lemma run_aborts_if_credential_missing (w : site) (data0 : list product)
    (username password : pyval) (max_products : option Z) (fuel : nat) :
  is_login_required (indicators_on_arrival w) = true ->
  negb (truthy (fst (resolve_credentials w username password)))
  || negb (truthy (snd (resolve_credentials w username password))) = true ->
  run w data0 username password max_products fuel
  = (Raises ValueError,
     [EvNewContext (session_file_exists w); EvGoto; EvCloseBrowser]).
Proof.
  intros Hreq Hmiss. unfold run.
  destruct (resolve_credentials w username password) as [u p].
  simpl in Hmiss.
  unfold finally, abind, login_gate, emit, raise. simpl.
  rewrite Hreq, Hmiss. reflexivity.
Qed.

(** C8.  When the login indicators are found on arrival and neither the
    arguments nor the configuration mapping supply a username or a
    password, [run] raises the ValueError for missing credentials: the
    browser is closed and nothing is extracted or exported. *)
Theorem login_without_credentials_aborts (w : site) (data0 : list product)
    (username password : pyval) (max_products : option Z) (fuel : nat)
    (Hrequired : is_login_required (indicators_on_arrival w) = true)
    (Huser : truthy username = false)
    (Hpass : truthy password = false)
    (Hconfig_user : forall v,
       load_config (config_json w) !! py "username" = Some v ->
       truthy v = false)
    (Hconfig_pass : forall v,
       load_config (config_json w) !! py "password" = Some v ->
       truthy v = false) :
  run w data0 username password max_products fuel
  = (Raises ValueError,
     [EvNewContext (session_file_exists w); EvGoto; EvCloseBrowser])
  /\ ~ In EvExtract (snd (run w data0 username password max_products fuel))
  /\ forall recs,
       ~ In (EvExport recs) (snd (run w data0 username password max_products fuel)).
Proof.
  assert (Hrun : run w data0 username password max_products fuel
                 = (Raises ValueError,
                    [EvNewContext (session_file_exists w); EvGoto;
                     EvCloseBrowser])).
  { apply run_aborts_if_credential_missing; [exact Hrequired|].
    unfold resolve_credentials. rewrite Huser. cbn [negb orb fst snd].
    destruct (load_config (config_json w) !! py "username") as [v|] eqn:Hv;
      cbn [from_option Datatypes.id].
    - rewrite (Hconfig_user v eq_refl). reflexivity.
    - rewrite Huser. reflexivity. }
  rewrite Hrun. split; [reflexivity|]. cbn [snd In].
  split; [|intros recs]; intros [H|[H|[H|[]]]]; discriminate.
Qed.

Lemma login_without_credentials_aborts_witness :
  run (gated_site (steady_page nine_cards)) [] PyNone (PyStr []) (Some 5%Z) 10
  = (Raises ValueError, [EvNewContext false; EvGoto; EvCloseBrowser]).
Proof.
  apply (login_without_credentials_aborts
           (gated_site (steady_page nine_cards)) [] PyNone (PyStr [])
           (Some 5%Z) 10).
  - reflexivity.
  - reflexivity.
  - reflexivity.
  - intros v Hv. cbn in Hv. rewrite lookup_empty in Hv. discriminate.
  - intros v Hv. cbn in Hv. rewrite lookup_empty in Hv. discriminate.
Defined.

(** C9.  When the grid does not become visible, [_extract_product_data]
    returns with [self.data] as it was, and a run that got past the login
    block goes on to export exactly that collection, closes the browser and
    returns it. *)
Theorem grid_timeout_exports_accumulated (w : site) (data0 : list product)
    (username password : pyval) (max_products : option Z) (fuel : nat)
    (Hgrid : grid_visible (products_page w) = false)
    (Hgate : gate_passes w
               (fst (resolve_credentials w username password))
               (snd (resolve_credentials w username password))) :
  extract_product_data max_products (products_page w) fuel data0
  = GridTimeout data0
  /\ exists pre,
       run w data0 username password max_products fuel
       = (Returns data0, pre ++ [EvExtract; EvExport data0; EvCloseBrowser])
       /\ Forall (fun ev => forall recs, ev <> EvExport recs) pre.
Proof.
  assert (Hx : extract_product_data max_products (products_page w) fuel data0
               = GridTimeout data0).
  { unfold extract_product_data. rewrite Hgrid. reflexivity. }
  split; [exact Hx|].
  unfold run. destruct (resolve_credentials w username password) as [u p].
  cbn [fst snd] in Hgate.
  unfold finally, abind, login_gate, login, extract_step, emit, raise, ret.
  rewrite Hx. simpl.
  destruct Hgate as [Hno|(Hu & Hp & Hafter)].
  - rewrite Hno. eexists [_; _; _; _]. split; [reflexivity|].
    repeat constructor; discriminate.
  - destruct (is_login_required (indicators_on_arrival w)).
    + rewrite Hu, Hp, Hafter. simpl. eexists [_; _; _; _; _; _].
      split; [reflexivity|]. repeat constructor; discriminate.
    + eexists [_; _; _; _]. split; [reflexivity|].
      repeat constructor; discriminate.
Qed.

Lemma grid_timeout_exports_accumulated_witness :
  extract_product_data (Some 5%Z) blank_page 10 [stored "7"]
  = GridTimeout [stored "7"]
  /\ exists pre,
       run (gated_site blank_page) [stored "7"]
         (PyStr (py "user")) (PyStr (py "secret")) (Some 5%Z) 10
       = (Returns [stored "7"],
          pre ++ [EvExtract; EvExport [stored "7"]; EvCloseBrowser])
       /\ Forall (fun ev => forall recs, ev <> EvExport recs) pre.
Proof.
  apply (grid_timeout_exports_accumulated (gated_site blank_page) [stored "7"]
           (PyStr (py "user")) (PyStr (py "secret")) (Some 5%Z) 10).
  - reflexivity.
  - right. repeat split; reflexivity.
Defined.

(** * Further properties of the normalizer *)

Lemma split_from_infix (s cur t : pystr) :
  In t (split_from cur s) ->
  exists pre post, cur ++ s = pre ++ t ++ post.
Proof.
  revert cur. induction s as [|a s IH]; intros cur; cbn [split_from].
  - destruct cur as [|c0 cur]; [intros []|].
    intros [<-|[]]. exists [], []. rewrite !app_nil_r. reflexivity.
  - destruct (isspace a).
    + destruct cur as [|c0 cur].
      * intros Hin. destruct (IH [] Hin) as (pre & post & Heq).
        cbn [app] in Heq. exists (a :: pre), post. cbn [app]. rewrite Heq.
        reflexivity.
      * intros [<-|Hin].
        -- exists [], (a :: s). reflexivity.
        -- destruct (IH [] Hin) as (pre & post & Heq). cbn [app] in Heq.
           exists ((c0 :: cur) ++ a :: pre), post.
           rewrite Heq, <- !app_assoc. reflexivity.
    + intros Hin. destruct (IH _ Hin) as (pre & post & Heq).
      exists pre, post. rewrite <- Heq, <- app_assoc. reflexivity.
Qed.

Lemma split_from_covers (s cur : pystr) (c : N) :
  In c cur \/ (In c s /\ isspace c = false) ->
  exists t, In t (split_from cur s) /\ In c t.
Proof.
  revert cur. induction s as [|a s IH]; intros cur; cbn [split_from].
  - intros [Hin|[[] _]]. destruct cur as [|c0 cur]; [destruct Hin|].
    exists (c0 :: cur). split; [left; reflexivity|exact Hin].
  - destruct (isspace a) eqn:Ha.
    + destruct cur as [|c0 cur].
      * intros [[]|[[->|Hin] Hc]]; [congruence|].
        apply IH. right. split; assumption.
      * intros [Hin|[[->|Hin] Hc]]; [|congruence|].
        -- exists (c0 :: cur). split; [left; reflexivity|exact Hin].
        -- destruct (IH [] (or_intror (conj Hin Hc))) as (t & Ht & Hct).
           exists t. split; [right; exact Ht|exact Hct].
    + intros [Hin|[[->|Hin] Hc]]; apply IH.
      * left. apply in_or_app. left. exact Hin.
      * left. apply in_or_app. right. left. reflexivity.
      * right. split; assumption.
Qed.

(** With a space in the value, what [clean_value] returns is one of the
    tokens. *)
Lemma clean_value_in_split (value r : pystr) :
  contains_space value = true ->
  clean_value value = Ok r ->
  In r (split value).
Proof.
  intros Hsp. unfold clean_value. rewrite Hsp. cbv zeta.
  destruct (List.find looks_like_value (split value)) as [part|] eqn:Hf.
  - intros [= <-]. apply List.find_some in Hf. tauto.
  - destruct (split value) as [|part0 ?]; [discriminate|].
    intros [= <-]. left. reflexivity.
Qed.

(** Two tables of ranges without a common code point. *)
Lemma ranges_apart (tbl1 tbl2 : list (N * N)) (c : N) :
  forallb (fun d => forallb (fun s => (snd d <? fst s)%N || (snd s <? fst d)%N)
                      tbl2) tbl1 = true ->
  in_ranges tbl1 c = true -> in_ranges tbl2 c = false.
Proof.
  intros Hapart H1. unfold in_ranges in *.
  apply existsb_exists in H1. destruct H1 as (d & Hd & Hcd).
  rewrite forallb_forall in Hapart. specialize (Hapart d Hd).
  rewrite forallb_forall in Hapart.
  destruct (existsb _ tbl2) eqn:H2; [|reflexivity].
  apply existsb_exists in H2. destruct H2 as (s & Hs & Hcs).
  specialize (Hapart s Hs).
  apply andb_true_iff in Hcd, Hcs. destruct Hcd as [D1 D2], Hcs as [S1 S2].
  apply N.leb_le in D1, D2, S1, S2.
  apply orb_true_iff in Hapart. destruct Hapart as [H|H]; apply N.ltb_lt in H; lia.
Qed.

Lemma digit_not_space (c : N) : isdigit c = true -> isspace c = false.
Proof. apply ranges_apart. vm_compute. reflexivity. Qed.

(** X1.  [_clean_value] raises exactly on the values that hold a space
    character and nothing but whitespace, and IndexError is the only
    exception it raises. *)
Theorem clean_value_raises_iff_blank (value : pystr) :
  (clean_value value = Raise IndexError
   <-> contains_space value = true /\ forallb isspace value = true)
  /\ forall e, clean_value value = Raise e -> e = IndexError.
Proof.
  split; [|apply clean_value_raises_index_error].
  unfold clean_value. split.
  - destruct (contains_space value); [|discriminate]. cbv zeta.
    destruct (List.find looks_like_value (split value)); [discriminate|].
    destruct (split value) eqn:Hs; [|discriminate].
    intros _. split; [reflexivity|]. apply split_nil. exact Hs.
  - intros [-> Hall]. apply split_nil in Hall. rewrite Hall. reflexivity.
Qed.

Lemma clean_value_raises_iff_blank_witness :
  clean_value [32; 9; 32]%N = Raise IndexError.
Proof.
  apply (proj1 (clean_value_raises_iff_blank [32; 9; 32]%N)).
  split; reflexivity.
Defined.

(** X2.  When the value holds a space and [_clean_value] returns, the result
    is a piece of the value as it stands: not empty, free of whitespace, and
    a contiguous part of the input. *)
Theorem clean_value_returns_token (value r : pystr)
    (Hspace : contains_space value = true)
    (Hreturns : clean_value value = Ok r) :
  r <> [] /\ no_whitespace r /\ exists pre post, value = pre ++ r ++ post.
Proof.
  pose proof (clean_value_in_split value r Hspace Hreturns) as Hin.
  pose proof (split_tokens value) as Htok.
  rewrite List.Forall_forall in Htok. destruct (Htok r Hin) as [Hne Hws].
  split; [exact Hne|]. split; [exact Hws|].
  apply (split_from_infix value [] r). exact Hin.
Qed.

Lemma clean_value_returns_token_witness :
  py "$19.99" <> [] /\ no_whitespace (py "$19.99")
  /\ exists pre post, py "Price $19.99 USD" = pre ++ py "$19.99" ++ post.
Proof.
  apply (clean_value_returns_token (py "Price $19.99 USD") (py "$19.99"));
    reflexivity.
Defined.

(** X3.  A value with a digit anywhere in it is always normalized, never
    refused: [_clean_value] returns a result that holds a digit or starts
    with a dollar sign. *)
Theorem clean_value_keeps_a_value (value : pystr) (c : N)
    (Hin : In c value) (Hdigit : isdigit c = true) :
  exists r, clean_value value = Ok r /\ looks_like_value r = true.
Proof.
  unfold clean_value. destruct (contains_space value).
  - cbv zeta.
    destruct (split_from_covers value [] c
                (or_intror (conj Hin (digit_not_space c Hdigit))))
      as (t & Ht & Hct).
    assert (Hlooks : looks_like_value t = true).
    { unfold looks_like_value. apply orb_true_iff. left.
      apply existsb_exists. exists c. split; assumption. }
    destruct (List.find looks_like_value (split value)) as [part|] eqn:Hf.
    + exists part. split; [reflexivity|]. apply List.find_some in Hf. tauto.
    + exfalso. apply (List.find_none _ _ Hf) in Ht. congruence.
  - exists value. split; [reflexivity|].
    unfold looks_like_value. apply orb_true_iff. left.
    apply existsb_exists. exists c. split; assumption.
Qed.

Lemma clean_value_keeps_a_value_witness :
  exists r, clean_value (py "Mass (kg) 3.2") = Ok r /\ looks_like_value r = true.
Proof.
  apply (clean_value_keeps_a_value (py "Mass (kg) 3.2") 51%N).
  - simpl. tauto.
  - reflexivity.
Defined.

(** * Further properties of a batch *)

(** X4.  A call of [_extract_products_from_current_view] keeps what
    [self.data] held and appends, in the order of the page, the normalized
    forms of some of the cards: each of them a card whose raw id was not in
    [extracted_ids] when the call began; [extracted_ids] grows by the ids of
    the appended records.  This holds also when the call raises. *)
Theorem batch_stores_in_page_order (max_products : option Z)
    (batch data : list product) (ids : gset pystr) r data' ids'
    (Hcall : extract_products_from_current_view max_products batch data ids
             = (r, (data', ids'))) :
  exists accepted new,
    sublist accepted batch
    /\ data' = data ++ new
    /\ Forall2 (fun p rcd => clean_fields p = Ok rcd) accepted new
    /\ Forall (fun p => id p ∉ ids) accepted
    /\ ids' = ids ∪ list_to_set (List.map id new).
Proof.
  revert data ids Hcall. induction batch as [|p rest IH]; intros data ids;
    cbn [extract_products_from_current_view].
  - intros [= _ <- <-]. exists [], []. rewrite app_nil_r. cbn.
    rewrite union_empty_r_L. repeat split; constructor.
  - destruct (bool_decide (id p ∉ ids)) eqn:Hfresh; cbn [andb].
    + destruct (below_ceiling max_products (length data)).
      * destruct (clean_fields p) as [p'|e] eqn:Hp.
        -- intros H. apply IH in H.
           destruct H as (acc & new & Hsub & -> & Hall & Hids & ->).
           exists (p :: acc), (p' :: new). rewrite <- app_assoc. cbn.
           rewrite (assoc_L (∪)).
           apply bool_decide_eq_true in Hfresh.
           repeat split; try constructor; try assumption.
           eapply Forall_impl; [exact Hids|].
           intros q Hq Hin. apply Hq. apply elem_of_union. left. exact Hin.
        -- intros [= _ <- <-]. exists [], []. rewrite app_nil_r. cbn.
           rewrite union_empty_r_L. repeat split; try constructor.
           apply sublist_nil_l.
      * intros H. apply IH in H.
        destruct H as (acc & new & Hsub & -> & Hall & Hids & ->).
        exists acc, new. repeat split; try assumption.
        apply sublist_cons. exact Hsub.
    + intros H. apply IH in H.
      destruct H as (acc & new & Hsub & -> & Hall & Hids & ->).
      exists acc, new. repeat split; try assumption.
      apply sublist_cons. exact Hsub.
Qed.

Lemma batch_stores_in_page_order_witness :
  exists accepted new,
    sublist accepted [card "1"; card "2"; card "3"]
    /\ [stored "1"; stored "3"] = [stored "1"] ++ new
    /\ Forall2 (fun p rcd => clean_fields p = Ok rcd) accepted new
    /\ Forall (fun p => id p ∉ ({[ py "1"; py "2" ]} : gset pystr)) accepted
    /\ ({[ py "1"; py "2"; py "3" ]} : gset pystr)
       = {[ py "1"; py "2" ]} ∪ list_to_set (List.map id new).
Proof.
  apply (batch_stores_in_page_order None [card "1"; card "2"; card "3"]
           [stored "1"] {[ py "1"; py "2" ]} (Ok tt)).
  vm_compute. reflexivity.
Defined.

(** With a positive ceiling, cards that are new, distinct, free of spaces in
    their ids and complete are stored one by one until the ceiling. *)
Lemma batch_fills (m : Z) (batch data : list product) (ids : gset pystr) :
  (0 < m)%Z ->
  NoDup (List.map id batch) ->
  Forall (fun p => id p ∉ ids) batch ->
  Forall (fun p => contains_space (id p) = false) batch ->
  Forall all_fields_present batch ->
  exists data' ids',
    extract_products_from_current_view (Some m) batch data ids
    = (Ok tt, (data', ids'))
    /\ Z.of_nat (length data')
       = Z.max (Z.of_nat (length data))
           (Z.min (Z.of_nat (length data) + Z.of_nat (length batch)) m).
Proof.
  intros Hpos. revert data ids.
  induction batch as [|p rest IH]; intros data ids Hnd Hnew Hclean Hfields;
    cbn [extract_products_from_current_view].
  - exists data, ids. split; [reflexivity|]. cbn [length]. lia.
  - cbn [List.map] in Hnd. apply NoDup_cons in Hnd. destruct Hnd as [Hp Hnd].
    inversion Hnew as [|? ? Hpn Hnew']; subst.
    inversion Hclean as [|? ? Hpc Hclean']; subst.
    inversion Hfields as [|? ? Hpf Hfields']; subst.
    rewrite (bool_decide_eq_true_2 _ Hpn). cbn [andb].
    destruct (below_ceiling (Some m) (length data)) eqn:Hb.
    + destruct (all_fields_present_clean p Hpf) as [p' Hp'].
      rewrite Hp'. apply clean_fields_ok in Hp'. destruct Hp' as (_ & Hid & _).
      rewrite (clean_value_fixed _ Hpc) in Hid. injection Hid as Hid.
      destruct (IH (data ++ [p']) (ids ∪ {[ id p' ]}) Hnd) as (d & i & He & Hlen);
        try assumption.
      * rewrite List.Forall_forall in *. intros q Hq Hin.
        apply elem_of_union in Hin. destruct Hin as [Hin|Hin];
          [exact (Hnew' q Hq Hin)|].
        apply elem_of_singleton in Hin. apply Hp. rewrite Hid, <- Hin.
        apply list_elem_of_In. apply in_map. exact Hq.
      * exists d, i. split; [exact He|]. rewrite Hlen, length_app.
        cbn [length below_ceiling] in *.
        destruct (Z.eqb_spec m 0); [lia|]. apply Z.ltb_lt in Hb. lia.
    + destruct (IH data ids Hnd) as (d & i & He & Hlen); try assumption.
      exists d, i. split; [exact He|]. rewrite Hlen.
      cbn [length below_ceiling] in *.
      destruct (Z.eqb_spec m 0); [lia|]. apply Z.ltb_ge in Hb. lia.
Qed.

(** X5.  With a positive ceiling [m], a batch of complete cards whose ids
    are distinct, hold no space and are not in [extracted_ids] raises
    nothing and fills [self.data] exactly up to the ceiling: afterwards it
    holds min(before + batch size, m) records, or what it held before when
    that was more. *)
Theorem batch_fills_up_to_ceiling (m : Z) (batch data : list product)
    (ids : gset pystr)
    (Hpos : (0 < m)%Z)
    (Hdistinct : NoDup (List.map id batch))
    (Hnew : Forall (fun p => id p ∉ ids) batch)
    (Hclean : Forall (fun p => contains_space (id p) = false) batch)
    (Hfields : Forall all_fields_present batch) :
  exists data' ids',
    extract_products_from_current_view (Some m) batch data ids
    = (Ok tt, (data', ids'))
    /\ Z.of_nat (length data')
       = Z.max (Z.of_nat (length data))
           (Z.min (Z.of_nat (length data) + Z.of_nat (length batch)) m).
Proof. apply batch_fills; assumption. Qed.

Lemma batch_fills_up_to_ceiling_witness :
  exists data' ids',
    extract_products_from_current_view (Some 5%Z) nine_cards [stored "0"] ∅
    = (Ok tt, (data', ids'))
    /\ Z.of_nat (length data')
       = Z.max (Z.of_nat (length [stored "0"]))
           (Z.min (Z.of_nat (length [stored "0"]) + Z.of_nat (length nine_cards)) 5).
Proof.
  apply (batch_fills_up_to_ceiling 5 nine_cards [stored "0"] ∅).
  - lia.
  - simpl. apply NoDup_ListNoDup. repeat constructor; simpl; intuition discriminate.
  - repeat constructor; apply not_elem_of_empty.
  - repeat constructor.
  - repeat constructor; (eexists; split; [left; reflexivity|reflexivity]).
Defined.

(** * Further properties of the pagination loop *)

(** The loop only appends to [self.data], and [extracted_ids] grows by the
    ids of what it appends. *)
Lemma loop_appends (max_products : option Z) (pg : page)
    (fuel i : nat) (st : loop_state) :
  exists new,
    data (outcome_state (pagination_loop max_products pg fuel i st))
    = data st ++ new
    /\ extracted_ids (outcome_state (pagination_loop max_products pg fuel i st))
       = extracted_ids st ∪ list_to_set (List.map id new).
Proof.
  assert (Hnil : exists new : list product,
             data st = data st ++ new
             /\ extracted_ids st = extracted_ids st ∪ list_to_set (List.map id new)).
  { exists []. rewrite app_nil_r. cbn. rewrite union_empty_r_L. split; reflexivity. }
  revert i st Hnil. induction fuel as [|fuel IH]; intros i st Hnil;
    cbn [pagination_loop].
  - destruct (while_condition st); exact Hnil.
  - destruct (while_condition st); [|exact Hnil].
    destruct (ceiling_reached max_products (length (data st))); [exact Hnil|].
    destruct (extract_products_from_current_view max_products
                (cards (views pg i)) (data st) (extracted_ids st))
      as [[u|e] [data' ids']] eqn:He;
      apply extract_appends in He; destruct He as (new & -> & -> & _ & _);
      [|exists new; split; reflexivity].
    destruct (ceiling_reached max_products (length (data st ++ new)));
      [exists new; split; reflexivity|].
    match goal with
    | |- context [pagination_loop _ _ _ _ ?s] => set (st' := s)
    end.
    assert (Hd : data st' = data st ++ new)
      by (unfold st'; destruct (_ =? _)%Z; reflexivity).
    assert (Hi : extracted_ids st'
                 = extracted_ids st ∪ list_to_set (List.map id new))
      by (unfold st'; destruct (_ =? _)%Z; reflexivity).
    destruct (IH (S i) st') as (new' & Hd' & Hi').
    { exists []. rewrite app_nil_r. cbn. rewrite union_empty_r_L.
      split; reflexivity. }
    exists (new ++ new'). rewrite Hd', Hi', Hd, Hi, List.map_app, app_assoc.
    split; [reflexivity|].
    rewrite list_to_set_app_L, (assoc_L (∪)). reflexivity.
Qed.

(** X6.  [_extract_product_data] and [run] never drop or reorder what the
    extractor already holds: [self.data] after the call is [self.data]
    before it followed by the new records, however the call ends, and a run
    returns such an extension. *)
Theorem extraction_only_appends (max_products : option Z) (pg : page)
    (fuel : nat) (data0 : list product) :
  (exists new,
     final_data (extract_product_data max_products pg fuel data0) = data0 ++ new)
  /\ forall w username password d tr,
       products_page w = pg ->
       run w data0 username password max_products fuel = (Returns d, tr) ->
       exists new, d = data0 ++ new.
Proof.
  assert (Hx : exists new,
             final_data (extract_product_data max_products pg fuel data0)
             = data0 ++ new).
  { unfold extract_product_data. destruct (grid_visible pg); cbn [final_data].
    - destruct (loop_appends max_products pg fuel O (initial_state data0 pg))
        as (new & Hd & _).
      exists new. exact Hd.
    - exists []. rewrite app_nil_r. reflexivity. }
  split; [exact Hx|].
  intros w username password d tr Hpg Hrun.
  apply run_returns in Hrun. destruct Hrun as [-> _]. rewrite Hpg. exact Hx.
Qed.

Lemma extraction_only_appends_witness :
  exists new,
    [stored "7"; stored "8"] = [stored "7"] ++ new.
Proof.
  apply (proj2 (extraction_only_appends (Some 2%Z) (steady_page [card "8"]) 5
                  [stored "7"])
           (open_site (steady_page [card "8"])) PyNone PyNone
           [stored "7"; stored "8"]
           [EvNewContext true; EvGoto; EvGotoChallenge; EvNavigateToProducts;
            EvExtract; EvExport [stored "7"; stored "8"]; EvCloseBrowser]).
  - reflexivity.
  - vm_compute. reflexivity.
Defined.

(** X7.  After the loop, [extracted_ids] is exactly the set of the ids of
    the records that this call of [_extract_product_data] appended: the set
    starts empty at every call, whatever [self.data] holds already. *)
Theorem extracted_ids_are_the_new_ids (max_products : option Z) (pg : page)
    (fuel : nat) (data0 : list product) :
  exists new,
    data (outcome_state
            (pagination_loop max_products pg fuel O (initial_state data0 pg)))
    = data0 ++ new
    /\ extracted_ids (outcome_state
            (pagination_loop max_products pg fuel O (initial_state data0 pg)))
       = list_to_set (List.map id new).
Proof.
  destruct (loop_appends max_products pg fuel O (initial_state data0 pg))
    as (new & Hd & Hi).
  exists new. split; [exact Hd|]. rewrite Hi. cbn [extracted_ids initial_state].
  apply union_empty_l_L.
Qed.

Lemma extract_ids_no_space (max_products : option Z)
    (batch data : list product) (ids : gset pystr) r data' ids' :
  (forall x, x ∈ ids -> contains_space x = false) ->
  extract_products_from_current_view max_products batch data ids
    = (r, (data', ids')) ->
  forall x, x ∈ ids' -> contains_space x = false.
Proof.
  intros Hids He. apply extract_appends in He.
  destruct He as (new & _ & -> & Hnew & _).
  intros x Hx. apply elem_of_union in Hx. destruct Hx as [Hx|Hx]; [auto|].
  apply elem_of_list_to_set, list_elem_of_In, in_map_iff in Hx.
  destruct Hx as (rcd & <- & Hrcd).
  rewrite List.Forall_forall in Hnew. destruct (Hnew rcd Hrcd) as (p & _ & Hp).
  apply clean_fields_ok in Hp. destruct Hp as (_ & Hid & _).
  eapply clean_value_no_space. exact Hid.
Qed.

Lemma loop_ids_no_space (max_products : option Z) (pg : page)
    (fuel i : nat) (st : loop_state) :
  (forall x, x ∈ extracted_ids st -> contains_space x = false) ->
  forall x,
    x ∈ extracted_ids (outcome_state (pagination_loop max_products pg fuel i st)) ->
    contains_space x = false.
Proof.
  revert i st. induction fuel as [|fuel IH]; intros i st Hids;
    cbn [pagination_loop].
  - destruct (while_condition st); exact Hids.
  - destruct (while_condition st); [|exact Hids].
    destruct (ceiling_reached max_products (length (data st))); [exact Hids|].
    destruct (extract_products_from_current_view max_products
                (cards (views pg i)) (data st) (extracted_ids st))
      as [[u|e] [data' ids']] eqn:He;
      pose proof (extract_ids_no_space _ _ _ _ _ _ _ Hids He) as Hids';
      [|exact Hids'].
    destruct (ceiling_reached max_products (length data')); [exact Hids'|].
    apply IH.
    destruct (height_after_scroll (views pg i) =? last_height st)%Z;
      exact Hids'.
Qed.

(** X8.  [extracted_ids] only ever holds normalized ids, which have no
    space in them.  So a card whose id text holds a space is at no point of
    the loop recognized as already extracted: the membership test lets it
    through at every batch. *)
Theorem spaced_id_is_never_seen (max_products : option Z) (pg : page)
    (fuel : nat) (data0 : list product) (p : product)
    (Hspace : contains_space (id p) = true) :
  id p ∉ extracted_ids (outcome_state
           (pagination_loop max_products pg fuel O (initial_state data0 pg))).
Proof.
  intros Hin. apply loop_ids_no_space in Hin; [congruence|].
  intros x Hx. cbn [extracted_ids initial_state] in Hx.
  apply not_elem_of_empty in Hx. contradiction.
Qed.

Lemma spaced_id_is_never_seen_witness :
  id (card "42 units")
  ∉ extracted_ids (outcome_state
      (pagination_loop (Some 3%Z) (steady_page [card "42 units"]) 9 O
         (initial_state [] (steady_page [card "42 units"])))).
Proof.
  apply (spaced_id_is_never_seen (Some 3%Z) (steady_page [card "42 units"]) 9 []
           (card "42 units")).
  reflexivity.
Defined.

(** X9.  For a fresh extractor and a page on which no id holds a space, the
    records that a run returns have pairwise distinct ids. *)
Theorem fresh_run_unique_ids (w : site) (username password : pyval)
    (max_products : option Z) (fuel : nat) (d : list product) (tr : list event)
    (Hpage : forall k, Forall (fun p => contains_space (id p) = false)
                         (cards (views (products_page w) k)))
    (Hrun : run w [] username password max_products fuel = (Returns d, tr)) :
  NoDup (List.map id d).
Proof.
  apply run_returns in Hrun. destruct Hrun as [-> _].
  unfold extract_product_data.
  destruct (grid_visible (products_page w)); cbn [final_data]; [|constructor].
  apply loop_keeps_unique; [exact Hpage|constructor|].
  intros x Hx. inversion Hx.
Qed.

Lemma fresh_run_unique_ids_witness :
  NoDup (List.map id [stored "7"]).
Proof.
  apply (fresh_run_unique_ids (open_site (steady_page [card "7"]))
           PyNone PyNone (Some 0%Z) 10 [stored "7"]
           [EvNewContext true; EvGoto; EvGotoChallenge; EvNavigateToProducts;
            EvExtract; EvExport [stored "7"]; EvCloseBrowser]).
  - intros k. repeat constructor.
  - vm_compute. reflexivity.
Defined.

Lemma extract_none_is_zero (batch data : list product) (ids : gset pystr) :
  extract_products_from_current_view None batch data ids
  = extract_products_from_current_view (Some 0%Z) batch data ids.
Proof.
  revert data ids. induction batch as [|p rest IH]; intros data ids;
    cbn [extract_products_from_current_view]; [reflexivity|].
  change (below_ceiling (Some 0%Z) (length data))
    with (below_ceiling None (length data)).
  destruct (bool_decide (id p ∉ ids) && below_ceiling None (length data));
    [|apply IH].
  destruct (clean_fields p); [apply IH|reflexivity].
Qed.

Lemma loop_none_is_zero (pg : page) (fuel i : nat) (st : loop_state) :
  pagination_loop None pg fuel i st = pagination_loop (Some 0%Z) pg fuel i st.
Proof.
  revert i st. induction fuel as [|fuel IH]; intros i st;
    cbn [pagination_loop]; [reflexivity|].
  destruct (while_condition st); [|reflexivity].
  change (ceiling_reached (Some 0%Z) (length (data st))) with false.
  change (ceiling_reached None (length (data st))) with false. cbv iota.
  rewrite extract_none_is_zero.
  destruct (extract_products_from_current_view (Some 0%Z)
              (cards (views pg i)) (data st) (extracted_ids st))
    as [[u|e] [data' ids']]; [|reflexivity].
  change (ceiling_reached (Some 0%Z) (length data')) with false.
  change (ceiling_reached None (length data')) with false. cbv iota.
  apply IH.
Qed.

(** X10.  A ceiling of 0 is no ceiling: with [max_products = 0] the loop
    and the whole run behave exactly as with [max_products = None]. *)
Theorem zero_ceiling_is_no_ceiling (w : site) (data0 : list product)
    (username password : pyval) (fuel : nat) :
  extract_product_data (Some 0%Z) (products_page w) fuel data0
  = extract_product_data None (products_page w) fuel data0
  /\ run w data0 username password (Some 0%Z) fuel
     = run w data0 username password None fuel.
Proof.
  assert (Hx : extract_product_data (Some 0%Z) (products_page w) fuel data0
               = extract_product_data None (products_page w) fuel data0).
  { unfold extract_product_data. rewrite loop_none_is_zero. reflexivity. }
  split; [exact Hx|].
  unfold run, extract_step. rewrite Hx. reflexivity.
Qed.

Lemma limit_break_reached (max_products : option Z) (pg : page)
    (fuel i n : nat) (st st' : loop_state) :
  pagination_loop max_products pg fuel i st = Finished LimitBreak n st' ->
  ceiling_reached max_products (length (data st')) = true.
Proof.
  revert i st. induction fuel as [|fuel IH]; intros i st;
    cbn [pagination_loop].
  - destruct (while_condition st); discriminate.
  - destruct (while_condition st); [|discriminate].
    destruct (ceiling_reached max_products (length (data st))) eqn:Hc.
    + intros [= _ <-]. exact Hc.
    + destruct (extract_products_from_current_view max_products
                  (cards (views pg i)) (data st) (extracted_ids st))
        as [[u|e] [data' ids']]; [|discriminate].
      destruct (ceiling_reached max_products (length data')) eqn:Hc'.
      * intros [= _ <-]. exact Hc'.
      * apply IH.
Qed.

Lemma while_exit_below (max_products : option Z) (pg : page)
    (fuel i n : nat) (st st' : loop_state) :
  while_condition st = true
  \/ ceiling_reached max_products (length (data st)) = false ->
  pagination_loop max_products pg fuel i st = Finished WhileExit n st' ->
  ceiling_reached max_products (length (data st')) = false.
Proof.
  revert i st. induction fuel as [|fuel IH]; intros i st Hst;
    cbn [pagination_loop].
  - destruct (while_condition st); [discriminate|].
    intros [= _ <-]. destruct Hst as [Hst|Hst]; [discriminate|exact Hst].
  - destruct (while_condition st).
    + destruct (ceiling_reached max_products (length (data st))); [discriminate|].
      destruct (extract_products_from_current_view max_products
                  (cards (views pg i)) (data st) (extracted_ids st))
        as [[u|e] [data' ids']]; [|discriminate].
      destruct (ceiling_reached max_products (length data')) eqn:Hc';
        [discriminate|].
      apply IH. right.
      destruct (height_after_scroll (views pg i) =? last_height st)%Z;
        exact Hc'.
    + intros [= _ <-]. destruct Hst as [Hst|Hst]; [discriminate|exact Hst].
Qed.

(** X11.  Under a positive ceiling [m], on an extractor that holds at most
    [m] records, the way the loop ends tells the count: it leaves by a
    [break] on the ceiling only with exactly [m] records, and by its while
    condition only with fewer than [m]. *)
Theorem limit_reached_iff_full (m : Z) (pg : page) (fuel : nat)
    (data0 : list product)
    (Hpos : (0 < m)%Z) (Hfits : (Z.of_nat (length data0) <= m)%Z) :
  (forall n st,
     pagination_loop (Some m) pg fuel O (initial_state data0 pg)
     = Finished LimitBreak n st ->
     Z.of_nat (length (data st)) = m)
  /\ (forall n st,
        pagination_loop (Some m) pg fuel O (initial_state data0 pg)
        = Finished WhileExit n st ->
        (Z.of_nat (length (data st)) < m)%Z).
Proof.
  split; intros n st Ho.
  - pose proof (loop_ceiling m pg fuel O (initial_state data0 pg) Hpos Hfits) as Hle.
    rewrite Ho in Hle. cbn [outcome_state] in Hle.
    apply limit_break_reached in Ho. unfold ceiling_reached in Ho.
    apply andb_true_iff in Ho. destruct Ho as [_ Ho]. apply Z.leb_le in Ho. lia.
  - apply while_exit_below in Ho; [|left; reflexivity].
    apply ceiling_reached_false in Ho; [exact Ho|lia].
Qed.

Lemma limit_reached_iff_full_witness :
  Z.of_nat (length [stored "1"; stored "2"]) = 2%Z.
Proof.
  apply (proj1 (limit_reached_iff_full 2
                  (steady_page [card "1"; card "2"; card "3"]) 5 []
                  ltac:(lia) ltac:(simpl; lia))
           1%nat
           {| data := [stored "1"; stored "2"];
              extracted_ids := {[ py "1"; py "2" ]};
              last_height := 0; scroll_attempts := O;
              no_new_items_count := O |}).
  vm_compute. reflexivity.
Defined.

(** X12.  A ceiling that is already reached stops the run before it reads
    a single batch: with a ceiling [m] other than 0 and at least [m] records
    in [self.data] (always so when [m] is negative), a run that gets past the
    login block exports and returns [self.data] as it was, whatever the page
    shows. *)
Theorem full_extractor_reads_nothing (m : Z) (w : site) (data0 : list product)
    (username password : pyval) (fuel : nat)
    (Hm : m <> 0%Z) (Hfull : (m <= Z.of_nat (length data0))%Z)
    (Hfuel : (1 <= fuel)%nat)
    (Hgate : gate_passes w
               (fst (resolve_credentials w username password))
               (snd (resolve_credentials w username password))) :
  final_data (extract_product_data (Some m) (products_page w) fuel data0) = data0
  /\ (grid_visible (products_page w) = true ->
      extract_product_data (Some m) (products_page w) fuel data0
      = Scrolled (Finished LimitBreak O (initial_state data0 (products_page w))))
  /\ exists pre,
       run w data0 username password (Some m) fuel
       = (Returns data0, pre ++ [EvExtract; EvExport data0; EvCloseBrowser]).
Proof.
  assert (Hc : ceiling_reached (Some m) (length data0) = true).
  { unfold ceiling_reached. destruct (Z.eqb_spec m 0); [contradiction|].
    cbn [negb andb]. apply Z.leb_le. exact Hfull. }
  assert (Hloop : pagination_loop (Some m) (products_page w) fuel O
                    (initial_state data0 (products_page w))
                  = Finished LimitBreak O (initial_state data0 (products_page w))).
  { destruct fuel as [|fuel]; [lia|]. cbn [pagination_loop].
    change (while_condition (initial_state data0 (products_page w))) with true.
    cbn [data initial_state]. rewrite Hc. reflexivity. }
  assert (Hx : final_data (extract_product_data (Some m) (products_page w) fuel data0)
               = data0).
  { unfold extract_product_data. destruct (grid_visible (products_page w));
      [rewrite Hloop|]; reflexivity. }
  split; [exact Hx|]. split.
  { intros Hvis. unfold extract_product_data. rewrite Hvis, Hloop. reflexivity. }
  unfold run. destruct (resolve_credentials w username password) as [u p].
  cbn [fst snd] in Hgate.
  unfold finally, abind, login_gate, login, extract_step, emit, raise, ret.
  unfold extract_product_data in *.
  destruct (grid_visible (products_page w)); [rewrite Hloop|]; simpl;
    (destruct Hgate as [Hno|(Hu & Hp & Hafter)];
     [rewrite Hno; eexists [_; _; _; _]; reflexivity|];
     destruct (is_login_required (indicators_on_arrival w));
     [rewrite Hu, Hp, Hafter; simpl; eexists [_; _; _; _; _; _]; reflexivity
     |eexists [_; _; _; _]; reflexivity]).
Qed.

Lemma full_extractor_reads_nothing_witness :
  final_data (extract_product_data (Some (-1)%Z)
                (products_page (open_site (steady_page nine_cards))) 3 [])
  = [].
Proof.
  apply (full_extractor_reads_nothing (-1) (open_site (steady_page nine_cards))
           [] PyNone PyNone 3).
  - lia.
  - simpl. lia.
  - lia.
  - left. reflexivity.
Defined.

(** On a page that has stopped growing at the height the loop remembers,
    every scroll counts as an attempt. *)
Lemma loop_without_growth (max_products : option Z) (pg : page)
    (fuel i : nat) (st : loop_state) :
  (forall k, height_after_scroll (views pg k) = last_height st) ->
  (max_scroll_attempts - scroll_attempts st <= fuel)%nat ->
  forall st', pagination_loop max_products pg fuel i st <> OutOfFuel st'.
Proof.
  revert i st. induction fuel as [|fuel IH]; intros i st Hflat Hfuel st';
    cbn [pagination_loop].
  - assert (Hw : while_condition st = false).
    { unfold while_condition. apply andb_false_iff. left.
      apply Nat.ltb_ge. lia. }
    rewrite Hw. discriminate.
  - destruct (while_condition st) eqn:Hw; [|discriminate].
    destruct (ceiling_reached max_products (length (data st))); [discriminate|].
    destruct (extract_products_from_current_view max_products
                (cards (views pg i)) (data st) (extracted_ids st))
      as [[u|e] [data' ids']]; [|discriminate].
    destruct (ceiling_reached max_products (length data')); [discriminate|].
    rewrite Hflat, Z.eqb_refl. apply IH.
    + exact Hflat.
    + cbn [scroll_attempts]. lia.
Qed.

(** X13.  Once the page has stopped growing, the loop ends whatever the
    ceiling, also without one: if every scroll reports the same height, the
    loop is over within 1001 batch extractions. *)
Theorem pagination_terminates_without_growth (max_products : option Z)
    (pg : page) (data0 : list product) (h : Z)
    (Hflat : forall k, height_after_scroll (views pg k) = h) :
  exists o,
    (forall fuel, (1001 <= fuel)%nat ->
       pagination_loop max_products pg fuel O (initial_state data0 pg) = o)
    /\ match o with
       | Finished _ n _ | Raised _ n _ => (n <= 1001)%nat
       | OutOfFuel _ => False
       end.
Proof.
  set (st0 := initial_state data0 pg).
  assert (Hstep : forall f st', (1000 <= f)%nat ->
             pagination_loop max_products pg (S f) O st0 <> OutOfFuel st').
  { intros f st' Hf. cbn [pagination_loop].
    destruct (while_condition st0); [|discriminate].
    destruct (ceiling_reached max_products (length (data st0))); [discriminate|].
    destruct (extract_products_from_current_view max_products
                (cards (views pg O)) (data st0) (extracted_ids st0))
      as [[u|e] [data' ids']]; [|discriminate].
    destruct (ceiling_reached max_products (length data')); [discriminate|].
    destruct (height_after_scroll (views pg O) =? last_height st0)%Z eqn:Hh;
      apply loop_without_growth; cbn [last_height scroll_attempts];
      try (intros k; rewrite !Hflat; reflexivity);
      try (unfold max_scroll_attempts; lia).
    apply Z.eqb_eq in Hh. intros k. rewrite <- Hh, !Hflat. reflexivity. }
  assert (Hend : forall st',
             pagination_loop max_products pg 1001 O st0 <> OutOfFuel st').
  { intros st'. apply (Hstep 1000%nat). lia. }
  exists (pagination_loop max_products pg 1001 O st0). split.
  - intros fuel Hfuel. replace fuel with (1001 + (fuel - 1001))%nat by lia.
    apply loop_fuel_mono. exact Hend.
  - pose proof (loop_iterations max_products pg 1001 O st0) as Hit.
    destruct (pagination_loop max_products pg 1001 O st0) as [how n st|e n st|st];
      [lia|lia|exact (Hend st eq_refl)].
Qed.

Lemma pagination_terminates_without_growth_witness :
  exists o,
    (forall fuel, (1001 <= fuel)%nat ->
       pagination_loop None (still_page [card "42 units"]) fuel O
         (initial_state [] (still_page [card "42 units"])) = o)
    /\ match o with
       | Finished _ n _ | Raised _ n _ => (n <= 1001)%nat
       | OutOfFuel _ => False
       end.
Proof.
  apply (pagination_terminates_without_growth None
           (still_page [card "42 units"]) [] 700).
  intros k. reflexivity.
Defined.

(** * Further properties of the run *)

Ltac run_cases w username password max_products fuel data0 :=
  unfold run;
  destruct (resolve_credentials w username password) as [?u ?p];
  unfold finally, abind, login_gate, login, extract_step, emit, raise, ret;
  cbn [fst snd] in *; simpl;
  destruct (is_login_required (indicators_on_arrival w)) eqn:?Hreq;
  [destruct (truthy u) eqn:?Hu; destruct (truthy p) eqn:?Hp; simpl;
   [destruct (is_login_required (indicators_after_login w)) eqn:?Hafter| | |]|];
  simpl;
  try (destruct (extract_product_data max_products (products_page w) fuel data0)
         as [?d|[?how ?n ?st|?e ?n ?st|?st]] eqn:?Hx; simpl).

(** Every way out of the try block of [run] closes the browser: closing
    it is the last thing the run does, and it does it once. *)
Lemma try_block_closes_browser (w : site) (data0 : list product)
    (username password : pyval) (max_products : option Z) (fuel : nat) :
  fst (run w data0 username password max_products fuel) <> Diverges ->
  exists pre,
    snd (run w data0 username password max_products fuel)
    = pre ++ [EvCloseBrowser]
    /\ ~ In EvCloseBrowser pre.
Proof.
  run_cases w username password max_products fuel data0; intros Hends;
    try (exfalso; apply Hends; reflexivity);
    match goal with
    | |- exists pre, ?l = _ /\ _ => exists (removelast l)
    end;
    (split; [reflexivity|simpl; intuition discriminate]).
Qed.



(** X15.  The session file is written exactly when a login was needed, both
    credentials were at hand after the configuration fallback, and the login
    indicators were gone after the form was submitted; at most once, and
    never when the site asked for no login. *)
Theorem session_saved_iff_login_succeeded (w : site) (data0 : list product)
    (username password : pyval) (max_products : option Z) (fuel : nat) :
  In EvSaveSession (snd (run w data0 username password max_products fuel))
  <-> (is_login_required (indicators_on_arrival w) = true
       /\ truthy (fst (resolve_credentials w username password)) = true
       /\ truthy (snd (resolve_credentials w username password)) = true
       /\ is_login_required (indicators_after_login w) = false).
Proof.
  run_cases w username password max_products fuel data0;
    (split;
     [intros Hin; repeat (destruct Hin as [Hin|Hin]; try discriminate Hin);
      try (destruct Hin); repeat split; congruence
     |intros (H1 & H2 & H3 & H4); try discriminate;
      simpl; tauto]).
Qed.

Lemma session_saved_iff_login_succeeded_witness :
  In EvSaveSession
    (snd (run (gated_site blank_page) []
            (PyStr (py "user")) (PyStr (py "secret")) (Some 5%Z) 10)).
Proof.
  apply (proj2 (session_saved_iff_login_succeeded (gated_site blank_page) []
                  (PyStr (py "user")) (PyStr (py "secret")) (Some 5%Z) 10)).
  repeat split; reflexivity.
Defined.

(** X16.  When the login indicators are still there after the form was
    submitted, [run] raises the login failure at once: the credentials were
    sent, but no session is saved, nothing is extracted or exported, and the
    browser is closed. *)
Theorem login_verification_failure (w : site) (data0 : list product)
    (username password : pyval) (max_products : option Z) (fuel : nat)
    (Hrequired : is_login_required (indicators_on_arrival w) = true)
    (Huser : truthy (fst (resolve_credentials w username password)) = true)
    (Hpass : truthy (snd (resolve_credentials w username password)) = true)
    (Hstill : is_login_required (indicators_after_login w) = true) :
  run w data0 username password max_products fuel
  = (Raises LoginFailed,
     [EvNewContext (session_file_exists w); EvGoto;
      EvLoginForm (fst (resolve_credentials w username password))
                  (snd (resolve_credentials w username password));
      EvCloseBrowser]).
Proof.
  unfold run. destruct (resolve_credentials w username password) as [u p].
  cbn [fst snd] in *.
  unfold finally, abind, login_gate, login, emit, raise. simpl.
  rewrite Hrequired, Huser, Hpass. simpl. rewrite Hstill. reflexivity.
Qed.

Lemma login_verification_failure_witness :
  run (locked_site (steady_page nine_cards)) []
    (PyStr (py "user")) (PyStr (py "wrong")) (Some 5%Z) 10
  = (Raises LoginFailed,
     [EvNewContext false; EvGoto;
      EvLoginForm (PyStr (py "user")) (PyStr (py "wrong")); EvCloseBrowser]).
Proof.
  apply (login_verification_failure (locked_site (steady_page nine_cards)) []
           (PyStr (py "user")) (PyStr (py "wrong")) (Some 5%Z) 10);
    reflexivity.
Defined.

(** X17.  The configuration file wins over an argument: when one of the two
    arguments is missing, [run] takes both credentials from the keys of the
    configuration mapping, so a username passed together with no password is
    replaced by the configured one, and that is what the login form
    receives. *)
Theorem config_overrides_explicit_username (w : site) (data0 : list product)
    (username password cu cp : pyval) (max_products : option Z) (fuel : nat)
    (Hnopass : truthy password = false)
    (Hcu : load_config (config_json w) !! py "username" = Some cu)
    (Hcp : load_config (config_json w) !! py "password" = Some cp)
    (Hrequired : is_login_required (indicators_on_arrival w) = true)
    (Htu : truthy cu = true) (Htp : truthy cp = true) :
  resolve_credentials w username password = (cu, cp)
  /\ In (EvLoginForm cu cp) (snd (run w data0 username password max_products fuel)).
Proof.
  assert (Hres : resolve_credentials w username password = (cu, cp)).
  { unfold resolve_credentials. rewrite Hnopass, Hcu, Hcp.
    rewrite orb_true_r. reflexivity. }
  split; [exact Hres|].
  unfold run. rewrite Hres.
  unfold finally, abind, login_gate, login, extract_step, emit, raise, ret. simpl.
  rewrite Hrequired, Htu, Htp. simpl.
  destruct (is_login_required (indicators_after_login w)); simpl; [tauto|].
  destruct (extract_product_data max_products (products_page w) fuel data0)
    as [d|[how n st|e n st|st]]; simpl; tauto.
Qed.

Lemma config_overrides_explicit_username_witness :
  resolve_credentials (configured_site blank_page) (PyStr (py "bob")) PyNone
  = (PyStr (py "alice"), PyStr (py "secret"))
  /\ In (EvLoginForm (PyStr (py "alice")) (PyStr (py "secret")))
        (snd (run (configured_site blank_page) [] (PyStr (py "bob")) PyNone
                (Some 5%Z) 10)).
Proof.
  apply (config_overrides_explicit_username (configured_site blank_page) []
           (PyStr (py "bob")) PyNone (PyStr (py "alice")) (PyStr (py "secret"))
           (Some 5%Z) 10); reflexivity.
Defined.

(** X18.  A run that raises inside its try block has exported nothing:
    whatever the exception and wherever it comes from, the login block or
    the extraction, [_export_data] was not called, so the records that the
    loop had accumulated by then are not written out. *)
Theorem failed_run_exports_nothing (w : site) (data0 : list product)
    (username password : pyval) (max_products : option Z) (fuel : nat)
    (e : exn) (tr : list event)
    (Hrun : run w data0 username password max_products fuel = (Raises e, tr)) :
  exports_nothing tr.
Proof.
  revert Hrun.
  run_cases w username password max_products fuel data0;
    intros [= <- <-] recs; simpl; intuition discriminate.
Qed.

Lemma failed_run_exports_nothing_witness :
  exports_nothing
    [EvNewContext true; EvGoto; EvGotoChallenge; EvNavigateToProducts;
     EvExtract; EvCloseBrowser].
Proof.
  apply (failed_run_exports_nothing
           (open_site (steady_page [card "1"; card " "])) [] PyNone PyNone
           (Some 5%Z) 10 IndexError).
  vm_compute. reflexivity.
Defined.

(** * Properties of the traversal *)

Lemma cascade_clicks_at_most_once (answers : string -> selector_answer)
    (selectors : list string) :
  (length (List.filter is_click (cascade answers selectors)) <= 1)%nat.
Proof.
  induction selectors as [|sel rest IH]; cbn [cascade]; [cbn; lia|].
  destruct (wait_for_selector (waited (answers sel))) as [[|]|];
    try destruct (click_ok (answers sel)); cbn; try exact IH; lia.
Qed.

Lemma cascade_waits (answers : string -> selector_answer)
    (selectors : list string) :
  (length (List.filter is_wait (cascade answers selectors)) <= length selectors)%nat
  /\ (selectors <> [] ->
      (1 <= length (List.filter is_wait (cascade answers selectors)))%nat).
Proof.
  induction selectors as [|sel rest [IH _]]; cbn [cascade];
    [split; [cbn; lia|congruence]|].
  destruct (wait_for_selector (waited (answers sel))) as [[|]|];
    try destruct (click_ok (answers sel)); cbn in *; split; intros; lia.
Qed.

(** X19.  In a traversal step a selector is clicked only after
    [_wait_for_selector] answered True for it, that is after it became
    visible or, on a timeout, matched at least one element; a selector for
    which the wait raised or found nothing is never clicked. *)
Theorem cascade_clicks_only_what_it_found (answers : string -> selector_answer)
    (selectors : list string) (selector : string) (ok : bool)
    (Hclick : In (NavClick selector ok) (cascade answers selectors)) :
  In selector selectors
  /\ (waited (answers selector) = BecameVisible
      \/ exists count, waited (answers selector) = TimedOut (Some (S count)))
  /\ click_ok (answers selector) = ok.
Proof.
  induction selectors as [|sel rest IH]; cbn [cascade] in Hclick;
    [destruct Hclick|].
  destruct Hclick as [Hclick|Hclick]; [discriminate|].
  assert (Hrest : In (NavClick selector ok) (cascade answers rest) ->
                  In selector (sel :: rest)
                  /\ (waited (answers selector) = BecameVisible
                      \/ exists count,
                           waited (answers selector) = TimedOut (Some (S count)))
                  /\ click_ok (answers selector) = ok).
  { intros H. destruct (IH H) as (H1 & H2 & H3).
    split; [right; exact H1|]. split; assumption. }
  destruct (wait_for_selector (waited (answers sel))) as [[|]|] eqn:Hw;
    try exact (Hrest Hclick).
  assert (Hfound : waited (answers sel) = BecameVisible
                   \/ exists count, waited (answers sel) = TimedOut (Some (S count))).
  { destruct (waited (answers sel)) as [|[[|count]|]|]; try discriminate;
      [left; reflexivity|right; exists count; reflexivity]. }
  destruct (click_ok (answers sel)) eqn:Hc.
  - destruct Hclick as [[= <- <-]|[]].
    split; [left; reflexivity|]. split; assumption.
  - destruct Hclick as [[= <- <-]|Hclick]; [|exact (Hrest Hclick)].
    split; [left; reflexivity|]. split; assumption.
Qed.

Lemma cascade_clicks_only_what_it_found_witness :
  In "[aria-label='Menu']"%string menu_selectors
  /\ (waited (aria_menu_only "[aria-label='Menu']") = BecameVisible
      \/ exists count,
           waited (aria_menu_only "[aria-label='Menu']") = TimedOut (Some (S count)))
  /\ click_ok (aria_menu_only "[aria-label='Menu']") = true.
Proof.
  apply (cascade_clicks_only_what_it_found aria_menu_only menu_selectors
           "[aria-label='Menu']" true).
  vm_compute. tauto.
Defined.

(** X20.  A traversal step stops at the first selector that is found and
    whose click returns: the selectors before it are tried in order, it is
    clicked, and no later selector is waited for or clicked.  The click that
    ends the step is the only one that returned. *)
Theorem cascade_stops_at_first_hit (answers : string -> selector_answer)
    (before after : list string) (selector : string)
    (Hmiss : Forall (fun s => hit answers s = false) before)
    (Hhit : hit answers selector = true) :
  cascade answers (before ++ selector :: after)
  = cascade answers before ++ [NavWait selector; NavClick selector true]
  /\ List.filter is_click (cascade answers before) = []
  /\ List.filter is_wait (cascade answers before) = List.map NavWait before.
Proof.
  induction Hmiss as [|s before Hs _ IH].
  - cbn [app cascade]. unfold hit in Hhit.
    destruct (wait_for_selector (waited (answers selector))) as [[|]|];
      try discriminate.
    rewrite Hhit. repeat split.
  - destruct IH as (IH1 & IH2 & IH3).
    cbn [app cascade List.map]. unfold hit in Hs.
    destruct (wait_for_selector (waited (answers s))) as [[|]|];
      [rewrite Hs|..]; cbn [List.filter is_click is_wait app];
      rewrite IH1, ?IH2, ?IH3; repeat split; assumption.
Qed.

Lemma cascade_stops_at_first_hit_witness :
  cascade aria_menu_only menu_selectors
  = cascade aria_menu_only ["button:has-text('Menu')"%string]
    ++ [NavWait "[aria-label='Menu']"; NavClick "[aria-label='Menu']" true].
Proof.
  apply (cascade_stops_at_first_hit aria_menu_only
           ["button:has-text('Menu')"%string]
           [".menu-button"; "button[class*='menu']"; "button:has(svg)";
            "button >> nth=0"]%string
           "[aria-label='Menu']").
  - repeat constructor.
  - reflexivity.
Defined.



(** * Further invariants of the output *)

Lemma extract_data_normalized (max_products : option Z)
    (batch data : list product) (ids : gset pystr) r data' ids' :
  Forall normalized data ->
  extract_products_from_current_view max_products batch data ids
    = (r, (data', ids')) ->
  Forall normalized data'.
Proof.
  intros Hdata He. apply extract_appends in He.
  destruct He as (new & -> & _ & Hnew & _).
  apply Forall_app. split; [exact Hdata|].
  eapply Forall_impl; [exact Hnew|].
  intros rcd (p & _ & Hp). apply clean_fields_ok in Hp.
  destruct Hp as (_ & H1 & H2 & H3 & H4).
  repeat split; eapply clean_value_no_space; eassumption.
Qed.

Lemma loop_data_normalized (max_products : option Z) (pg : page)
    (fuel i : nat) (st : loop_state) :
  Forall normalized (data st) ->
  Forall normalized
    (data (outcome_state (pagination_loop max_products pg fuel i st))).
Proof.
  revert i st. induction fuel as [|fuel IH]; intros i st Hst;
    cbn [pagination_loop].
  - destruct (while_condition st); exact Hst.
  - destruct (while_condition st); [|exact Hst].
    destruct (ceiling_reached max_products (length (data st))); [exact Hst|].
    destruct (extract_products_from_current_view max_products
                (cards (views pg i)) (data st) (extracted_ids st))
      as [[u|e] [data' ids']] eqn:He;
      pose proof (extract_data_normalized _ _ _ _ _ _ _ Hst He) as Hd';
      [|exact Hd'].
    destruct (ceiling_reached max_products (length data')); [exact Hd'|].
    apply IH.
    destruct (height_after_scroll (views pg i) =? last_height st)%Z; exact Hd'.
Qed.

(** X22.  Every record that a run of a fresh extractor returns is
    normalized: its id, price, mass_kg and score hold no space character
    (its name is stored as the page gave it). *)
Theorem returned_records_are_normalized (w : site)
    (username password : pyval) (max_products : option Z) (fuel : nat)
    (d : list product) (tr : list event)
    (Hrun : run w [] username password max_products fuel = (Returns d, tr)) :
  Forall normalized d.
Proof.
  apply run_returns in Hrun. destruct Hrun as [-> _].
  unfold extract_product_data.
  destruct (grid_visible (products_page w)); cbn [final_data]; [|constructor].
  apply loop_data_normalized. constructor.
Qed.

Lemma returned_records_are_normalized_witness :
  Forall normalized [stored "42"; stored "42"].
Proof.
  apply (returned_records_are_normalized
           (open_site (steady_page [card "42 units"])) PyNone PyNone
           (Some 2%Z) 5 [stored "42"; stored "42"]
           [EvNewContext true; EvGoto; EvGotoChallenge; EvNavigateToProducts;
            EvExtract; EvExport [stored "42"; stored "42"]; EvCloseBrowser]).
  vm_compute. reflexivity.
Defined.

